(** * ClockRadio: the alarm / snooze core of [ClockRadio.py]

    A shallow embedding of the CircuitPython clock-radio program.  The
    module-level globals of the script become one record [state]; every
    function that assigns to globals becomes a function [state -> state].
    Each call of [time.monotonic()] is an explicit argument (the value the
    call returned), each read of a pin's [.value] is an explicit boolean.

    Not modelled: the seven-segment display ([display.print], colon,
    brightness), [time.sleep] (it only lets real time pass, which shows in the
    timestamps handed to later calls) and the WiFi bring-up. *)

From Stdlib Require Import ZArith QArith Lia Ascii String DecimalString List Bool.
From stdpp Require Import base option gmap strings.
Import ListNotations.

Local Open Scope Z_scope.

(** ** Python primitives *)

(** [time.monotonic()] returns a float number of seconds; it is modelled as an
    exact rational.  [int(x)] on a float truncates toward zero. *)
Definition py_int_of_float (x : Q) : Z := Z.quot (Qnum x) (Zpos (Qden x)).

(** Truth value of an integer, as in [if mute] and [bool(mute)]. *)
Definition py_bool (n : Z) : bool := negb (n =? 0).

(** A reader of plain decimal numerals: an optional sign followed by one or
    more ASCII digits.  The builtin [int] applied to a string is a parameter
    of the development (see [Section Program]); this reader is the instance
    used to run the program on concrete requests. *)
Definition digit_of_ascii (c : ascii) : option Z :=
  let n := Z.of_nat (nat_of_ascii c) in
  if (48 <=? n) && (n <=? 57) then Some (n - 48) else None.

Fixpoint dec_digits (acc : Z) (s : string) : option Z :=
  match s with
  | EmptyString => Some acc
  | String c s' =>
      match digit_of_ascii c with
      | Some d => dec_digits (10 * acc + d) s'
      | None => None
      end
  end.

Definition dec_nat (s : string) : option Z :=
  match s with
  | EmptyString => None
  | _ => dec_digits 0 s
  end.

Definition dec_int (s : string) : option Z :=
  match s with
  | String "-"%char s' => option_map Z.opp (dec_nat s')
  | String "+"%char s' => dec_nat s'
  | _ => dec_nat s
  end.

(** ** Constants *)

Definition SET_HOUR : Z := 12.
Definition SET_MINUTE : Z := 0.
Definition SET_SECOND : Z := 0.
Definition ALARM_HOUR : Z := 6.
Definition ALARM_MINUTE : Z := 30.
Definition ALARM_SECOND : Z := 0.
Definition SNOOZE_SECONDS : Z := 9 * 60.
Definition MAX_SNOOZES : Z := 2.

(** ** The program state *)

(** The TEA5767 driver object: the frequency it was constructed with (in
    tenths of a MHz) and the argument of the last [radio.mute(...)] call made
    on it, [None] when none was made since construction. *)
Record Radio := mkRadio { freq : Z; muted : option bool }.

Definition radio_mute (b : bool) (r : Radio) : Radio := mkRadio (freq r) (Some b).

(** The globals of the script.  [station] is kept in tenths of a MHz (the
    script rounds it to one decimal after every step). *)
Record state := mkState {
  station : Z;
  mute : Z;
  radio : Radio;
  base_seconds : Z;
  alarm_seconds : Z;
  start_monotonic : Q;
  alarm_ringing : bool;
  initial_fired_today : bool;
  snooze_count : Z;
  snooze_target : option Z;
  alarm_done_for_day : bool;
  prev_current_seconds : option Z
}.

(** Assignments to a single global. *)
Definition set_station v s :=
  mkState v (mute s) (radio s) (base_seconds s) (alarm_seconds s) (start_monotonic s)
    (alarm_ringing s) (initial_fired_today s) (snooze_count s) (snooze_target s)
    (alarm_done_for_day s) (prev_current_seconds s).
Definition set_mute v s :=
  mkState (station s) v (radio s) (base_seconds s) (alarm_seconds s) (start_monotonic s)
    (alarm_ringing s) (initial_fired_today s) (snooze_count s) (snooze_target s)
    (alarm_done_for_day s) (prev_current_seconds s).
Definition set_radio v s :=
  mkState (station s) (mute s) v (base_seconds s) (alarm_seconds s) (start_monotonic s)
    (alarm_ringing s) (initial_fired_today s) (snooze_count s) (snooze_target s)
    (alarm_done_for_day s) (prev_current_seconds s).
Definition set_base_seconds v s :=
  mkState (station s) (mute s) (radio s) v (alarm_seconds s) (start_monotonic s)
    (alarm_ringing s) (initial_fired_today s) (snooze_count s) (snooze_target s)
    (alarm_done_for_day s) (prev_current_seconds s).
Definition set_alarm_seconds v s :=
  mkState (station s) (mute s) (radio s) (base_seconds s) v (start_monotonic s)
    (alarm_ringing s) (initial_fired_today s) (snooze_count s) (snooze_target s)
    (alarm_done_for_day s) (prev_current_seconds s).
Definition set_start_monotonic v s :=
  mkState (station s) (mute s) (radio s) (base_seconds s) (alarm_seconds s) v
    (alarm_ringing s) (initial_fired_today s) (snooze_count s) (snooze_target s)
    (alarm_done_for_day s) (prev_current_seconds s).
Definition set_alarm_ringing v s :=
  mkState (station s) (mute s) (radio s) (base_seconds s) (alarm_seconds s) (start_monotonic s)
    v (initial_fired_today s) (snooze_count s) (snooze_target s)
    (alarm_done_for_day s) (prev_current_seconds s).
Definition set_initial_fired_today v s :=
  mkState (station s) (mute s) (radio s) (base_seconds s) (alarm_seconds s) (start_monotonic s)
    (alarm_ringing s) v (snooze_count s) (snooze_target s)
    (alarm_done_for_day s) (prev_current_seconds s).
Definition set_snooze_count v s :=
  mkState (station s) (mute s) (radio s) (base_seconds s) (alarm_seconds s) (start_monotonic s)
    (alarm_ringing s) (initial_fired_today s) v (snooze_target s)
    (alarm_done_for_day s) (prev_current_seconds s).
Definition set_snooze_target v s :=
  mkState (station s) (mute s) (radio s) (base_seconds s) (alarm_seconds s) (start_monotonic s)
    (alarm_ringing s) (initial_fired_today s) (snooze_count s) v
    (alarm_done_for_day s) (prev_current_seconds s).
Definition set_alarm_done_for_day v s :=
  mkState (station s) (mute s) (radio s) (base_seconds s) (alarm_seconds s) (start_monotonic s)
    (alarm_ringing s) (initial_fired_today s) (snooze_count s) (snooze_target s)
    v (prev_current_seconds s).
Definition set_prev_current_seconds v s :=
  mkState (station s) (mute s) (radio s) (base_seconds s) (alarm_seconds s) (start_monotonic s)
    (alarm_ringing s) (initial_fired_today s) (snooze_count s) (snooze_target s)
    (alarm_done_for_day s) v.

(** The state after the module-level initialisation; [t0] is the value of the
    [time.monotonic()] call that initialises [start_monotonic]. *)
Definition initial_state (t0 : Q) : state :=
  mkState 999 0 (mkRadio 999 None)
    (SET_HOUR * 3600 + SET_MINUTE * 60 + SET_SECOND)
    (ALARM_HOUR * 3600 + ALARM_MINUTE * 60 + ALARM_SECOND)
    t0 false false 0 None false None.

(** ** Helpers *)

Definition get_current_seconds (now : Q) (s : state) : Z :=
  let elapsed := py_int_of_float (now - start_monotonic s) in
  (base_seconds s + elapsed) mod 86400.

(** [int(hh)] on an integer argument is the identity; [%] with a positive
    modulus is [Z.modulo]. *)
Definition set_clock (hh mm ss : Z) (now : Q) (s : state) : state :=
  let hh := hh mod 24 in
  let mm := mm mod 60 in
  let ss := ss mod 60 in
  let s := set_base_seconds (hh * 3600 + mm * 60 + ss) s in
  set_start_monotonic now s.

Definition set_alarm (hh mm ss : Z) (s : state) : state :=
  let hh := hh mod 24 in
  let mm := mm mod 60 in
  let ss := ss mod 60 in
  set_alarm_seconds (hh * 3600 + mm * 60 + ss) s.

(** [now] is the clock value read inside [get_current_seconds], [now'] the
    one stored in [start_monotonic] two statements later. *)
Definition increment_hour (now now' : Q) (s : state) : state :=
  let current := get_current_seconds now s in
  let current := (current + 3600) mod 86400 in
  let s := set_base_seconds current s in
  set_start_monotonic now' s.

Definition increment_minute (now now' : Q) (s : state) : state :=
  let current := get_current_seconds now s in
  let current := (current + 60) mod 86400 in
  let s := set_base_seconds current s in
  set_start_monotonic now' s.

Definition increment_alarm_hour (s : state) : state :=
  set_alarm_seconds ((alarm_seconds s + 3600) mod 86400) s.

Definition increment_alarm_minute (s : state) : state :=
  set_alarm_seconds ((alarm_seconds s + 60) mod 86400) s.

Definition apply_station (new_station : Z) (s : state) : state :=
  let s := set_radio (mkRadio new_station None) s in
  set_radio (radio_mute (py_bool (mute s)) (radio s)) s.

Definition step_station (step : Z) (s : state) : state :=
  let new_station := station s + step in
  let new_station :=
    if new_station <? 880 then 1080
    else if new_station >? 1080 then 880
    else new_station in
  let s := set_station new_station s in
  apply_station (station s) s.

Definition start_alarm_ring (s : state) : state :=
  let s := set_radio (radio_mute false (radio s)) s in
  let s := set_mute 0 s in
  set_alarm_ringing true s.

Definition stop_alarm_audio_mute (s : state) : state :=
  let s := set_radio (radio_mute true (radio s)) s in
  set_mute 1 s.

Definition cancel_alarm_process_for_today (s : state) : state :=
  let s := set_alarm_ringing false s in
  let s := set_snooze_target None s in
  let s := set_alarm_done_for_day true s in
  stop_alarm_audio_mute s.

Definition reset_daily_alarm_state (s : state) : state :=
  let s := set_alarm_ringing false s in
  let s := set_initial_fired_today false s in
  let s := set_snooze_count 0 s in
  let s := set_snooze_target None s in
  set_alarm_done_for_day false s.

Definition alarm_disable_reset (s : state) : state :=
  let s := set_alarm_ringing false s in
  let s := set_initial_fired_today false s in
  let s := set_snooze_count 0 s in
  let s := set_snooze_target None s in
  set_alarm_done_for_day false s.

Definition handle_mute_press (now : Q) (s : state) : state :=
  if alarm_ringing s then
    if snooze_count s <? MAX_SNOOZES then
      let s := set_snooze_count (snooze_count s + 1) s in
      let now := get_current_seconds now s in
      let s := set_snooze_target (Some ((now + SNOOZE_SECONDS) mod 86400)) s in
      let s := set_alarm_ringing false s in
      stop_alarm_audio_mute s
    else
      cancel_alarm_process_for_today s
  else
    let s := set_mute (if py_bool (mute s) then 0 else 1) s in
    set_radio (radio_mute (py_bool (mute s)) (radio s)) s.

(** ** Web API and main loop *)

(** What a route handler returns: a text response with its status code, the
    JSON object of [/status] (without the [ip] entry), or the HTML page. *)
Record status_json := mkStatus {
  json_alarm_enabled : Z;
  json_current_seconds : Z;
  json_alarm_seconds : Z;
  json_mute_state : Z;
  json_station_mhz : Z;
  json_alarm_ringing : Z;
  json_snooze_count : Z
}.

Inductive Response :=
| TextResponse (body : string) (status : Z)
| JSONResponse (data : status_json)
| HtmlResponse.

(** A request that [server.poll()] dispatches to a route.  Besides the query
    parameters it carries what the handler reads from the outside while it
    runs: the values of [time.monotonic()] and of the enable pin. *)
Inductive Request :=
| GET_index
| GET_status (now : Q) (sw_alarm_enable_value : bool)
| GET_mute_toggle (now : Q)
| GET_station_up
| GET_station_down
| GET_clock_plus_hour (now now' : Q)
| GET_clock_plus_min (now now' : Q)
| GET_alarm_plus_hour
| GET_alarm_plus_min
| GET_set_clock (query_params : gmap string string) (now : Q)
| GET_set_alarm (query_params : gmap string string).

(** The inputs of one iteration of the main loop: the requests served by
    [server.poll()], the pin values in the order they are read, and the
    values returned by the calls of [time.monotonic()] that the iteration may
    make.  A pin reads [false] when its button or switch is closed. *)
Record inputs := mkInputs {
  requests : list Request;
  now_cur : Q;
  sw_alarm_enable : bool;
  but_mute : bool;
  now_mute : Q;
  stn_up : bool;
  stn_down : bool;
  sw_alarm : bool;
  but_hours : bool;
  now_hours : Q;
  now_hours' : Q;
  but_mins : bool;
  now_mins : Q;
  now_mins' : Q
}.

Definition Z_of_bool (b : bool) : Z := if b then 1 else 0.

Section Program.

(** The builtin [int] on a query-string value: [None] stands for the
    [ValueError] it raises. *)
Variable py_int : string -> option Z.

Definition route_status (now : Q) (sw_alarm_enable_value : bool) (s : state)
  : Response * state :=
  let current := get_current_seconds now s in
  (JSONResponse
     (mkStatus (Z_of_bool (negb sw_alarm_enable_value)) current (alarm_seconds s)
        (mute s) (station s) (Z_of_bool (alarm_ringing s)) (snooze_count s)),
   s).

Definition route_set_clock (query_params : gmap string string) (now : Q) (s : state)
  : Response * state :=
  let hh := query_params !! "hh"%string in
  let mm := query_params !! "mm"%string in
  let ss := query_params !! "ss"%string in
  match hh, mm with
  | Some hh, Some mm =>
      match py_int hh, py_int mm, from_option py_int (Some 0) ss with
      | Some hh, Some mm, Some ss =>
          (TextResponse "OK" 200, set_clock hh mm ss now s)
      | _, _, _ => (TextResponse "Bad request" 400, s)
      end
  | _, _ => (TextResponse "Missing hh or mm" 400, s)
  end.

Definition route_set_alarm (query_params : gmap string string) (s : state)
  : Response * state :=
  let hh := query_params !! "hh"%string in
  let mm := query_params !! "mm"%string in
  let ss := query_params !! "ss"%string in
  match hh, mm with
  | Some hh, Some mm =>
      match py_int hh, py_int mm, from_option py_int (Some 0) ss with
      | Some hh, Some mm, Some ss =>
          (TextResponse "OK" 200, set_alarm hh mm ss s)
      | _, _, _ => (TextResponse "Bad request" 400, s)
      end
  | _, _ => (TextResponse "Missing hh or mm" 400, s)
  end.

Definition serve (r : Request) (s : state) : Response * state :=
  match r with
  | GET_index => (HtmlResponse, s)
  | GET_status now en => route_status now en s
  | GET_mute_toggle now => (TextResponse "OK" 200, handle_mute_press now s)
  | GET_station_up => (TextResponse "OK" 200, step_station 1 s)
  | GET_station_down => (TextResponse "OK" 200, step_station (-1) s)
  | GET_clock_plus_hour now now' => (TextResponse "OK" 200, increment_hour now now' s)
  | GET_clock_plus_min now now' => (TextResponse "OK" 200, increment_minute now now' s)
  | GET_alarm_plus_hour => (TextResponse "OK" 200, increment_alarm_hour s)
  | GET_alarm_plus_min => (TextResponse "OK" 200, increment_alarm_minute s)
  | GET_set_clock q now => route_set_clock q now s
  | GET_set_alarm q => route_set_alarm q s
  end.

(** [server.poll()]: the pending requests are served in order. *)
Fixpoint server_poll (rs : list Request) (s : state) : state :=
  match rs with
  | [] => s
  | r :: rs' => server_poll rs' (snd (serve r s))
  end.

(** "Current time and day rollover detection". *)
Definition rollover_detection (cur : Z) (s : state) : state :=
  match prev_current_seconds s with
  | None => set_prev_current_seconds (Some cur) s
  | Some prev =>
      let s := if cur <? prev then reset_daily_alarm_state s else s in
      set_prev_current_seconds (Some cur) s
  end.

(** "Turning alarm OFF cancels ringing/snooze immediately". *)
Definition arming_override (alarm_enabled : bool) (s : state) : state :=
  if negb alarm_enabled then alarm_disable_reset s else s.

(** "Hardware buttons". *)
Definition hardware_buttons (i : inputs) (s : state) : state :=
  let s := if negb (but_mute i) then handle_mute_press (now_mute i) s else s in
  let s := if negb (stn_up i) then step_station 1 s else s in
  let s := if negb (stn_down i) then step_station (-1) s else s in
  if negb (sw_alarm i) then
    let s := if negb (but_hours i) then increment_alarm_hour s else s in
    if negb (but_mins i) then increment_alarm_minute s else s
  else
    let s := if negb (but_hours i) then increment_hour (now_hours i) (now_hours' i) s else s in
    if negb (but_mins i) then increment_minute (now_mins i) (now_mins' i) s else s.

(** "Alarm + Snooze Logic". *)
Definition alarm_snooze_logic (alarm_enabled : bool) (cur : Z) (s : state) : state :=
  if alarm_enabled && negb (alarm_done_for_day s) then
    let cur_min := cur / 60 in
    let alarm_min := alarm_seconds s / 60 in
    let s :=
      if negb (initial_fired_today s) && (cur_min =? alarm_min) then
        let s := set_initial_fired_today true s in
        let s := set_snooze_target None s in
        start_alarm_ring s
      else s in
    match snooze_target s with
    | Some target =>
        if cur_min =? target / 60 then
          let s := set_snooze_target None s in
          start_alarm_ring s
        else s
    | None => s
    end
  else s.

(** One iteration of [while True]. *)
Definition main_loop_body (i : inputs) (s : state) : state :=
  let s := server_poll (requests i) s in
  let cur := get_current_seconds (now_cur i) s in
  let s := rollover_detection cur s in
  let alarm_enabled := negb (sw_alarm_enable i) in
  let s := arming_override alarm_enabled s in
  let s := hardware_buttons i s in
  alarm_snooze_logic alarm_enabled cur s.

Fixpoint main_loop (ins : list inputs) (s : state) : state :=
  match ins with
  | [] => s
  | i :: ins' => main_loop ins' (main_loop_body i s)
  end.

(** Whether iteration [i] run from [s] sees the clock wrap. *)
Definition day_rolled (i : inputs) (s : state) : bool :=
  let s := server_poll (requests i) s in
  match prev_current_seconds s with
  | None => false
  | Some prev => get_current_seconds (now_cur i) s <? prev
  end.

(** Iterations that stay within one day with the alarm armed: the enable
    switch is closed and the clock does not wrap, at every iteration. *)
Fixpoint armed_same_day (ins : list inputs) (s : state) : Prop :=
  match ins with
  | [] => True
  | i :: ins' =>
      sw_alarm_enable i = false /\ day_rolled i s = false /\
      armed_same_day ins' (main_loop_body i s)
  end.

(** States the program can be in: the initial one, and the state after any
    block of the main loop run from such a state. *)
Inductive reachable : state -> Prop :=
| reach_init t0 : reachable (initial_state t0)
| reach_serve r s : reachable s -> reachable (snd (serve r s))
| reach_rollover cur s : reachable s -> reachable (rollover_detection cur s)
| reach_override en s : reachable s -> reachable (arming_override en s)
| reach_buttons i s : reachable s -> reachable (hardware_buttons i s)
| reach_alarm en cur s : reachable s -> reachable (alarm_snooze_logic en cur s).

End Program.

(** ** Runs used in the statements *)

(** An iteration that serves the requests [rs] with no button pressed;
    every clock read of the loop body returns [t]. *)
Definition idle_inputs (rs : list Request) (t : Q) (enable_pin : bool) : inputs :=
  mkInputs rs t enable_pin true t true true true true t t true t t.

(** An iteration with no request in which only the mute button is pressed;
    every clock read returns [t]. *)
Definition mute_button_inputs (t : Q) (enable_pin : bool) : inputs :=
  mkInputs [] t enable_pin false t true true true true t t true t t.

(** Query strings of the web page's "Set Clock" / "Set Alarm" buttons. *)
Definition query_hh_mm (hh mm : string) : gmap string string :=
  {[ "hh"%string := hh; "mm"%string := mm ]}.








(** The whole seconds elapsed at clock value [t], and the number of
    midnights the clock of [s] has passed by then. *)
Definition elapsed (s : state) (t : Q) : Z :=
  py_int_of_float (t - start_monotonic s).

Definition day_of (s : state) (t : Q) : Z :=
  (base_seconds s + elapsed s t) / 86400.

(** How often the rollover block resets the daily state over successive
    iterations that read the clock at [ts]. *)
Fixpoint rollovers (ts : list Q) (s : state) : Z :=
  match ts with
  | [] => 0
  | t :: ts' =>
      let cur := get_current_seconds t s in
      match prev_current_seconds s with
      | Some prev => if cur <? prev then 1 else 0
      | None => 0
      end + rollovers ts' (rollover_detection cur s)
  end.

(** Successive reads by a clock that is not set back and is read at least
    once a day. *)
Fixpoint paced (s : state) (t : Q) (ts : list Q) : Prop :=
  match ts with
  | [] => True
  | t' :: ts' =>
      elapsed s t <= elapsed s t' < elapsed s t + 86400 /\ paced s t' ts'
  end.

(** *** Example runs

    The clock is set to 06:30, the default alarm time, and the armed alarm
    rings in the same iteration. *)
Definition ringing_example : state :=
  main_loop dec_int
    [idle_inputs [GET_set_clock (query_hh_mm "6" "30") 0] 0 false]
    (initial_state 0).

(** One second later the web page's mute button snoozes the alarm. *)
Definition snoozed_example : state :=
  main_loop dec_int [idle_inputs [GET_mute_toggle 1] 1 false] ringing_example.

(** Nine minutes later the snoozed alarm rings again. *)
Definition second_ring_example : state :=
  main_loop dec_int [idle_inputs [] 541 false] snoozed_example.

(** A second snooze, the second snoozed ring, and the dismissing mute. *)
Definition dismissed_example : state :=
  main_loop dec_int
    [idle_inputs [GET_mute_toggle 542] 542 false;
     idle_inputs [] 1082 false;
     idle_inputs [GET_mute_toggle 1083] 1083 false]
    second_ring_example.

(** Clock and alarm set to 23:59: the alarm rings one minute before
    midnight. *)
Definition midnight_example : state :=
  main_loop dec_int
    [idle_inputs [GET_set_alarm (query_hh_mm "23" "59");
                  GET_set_clock (query_hh_mm "23" "59") 0] 0 false]
    (initial_state 0).

(** The daily alarm lifecycle: the five globals that the two reset
    functions clear. *)
Definition ring_state (s : state) : bool * bool * Z * option Z * bool :=
  (alarm_ringing s, initial_fired_today s, snooze_count s, snooze_target s,
   alarm_done_for_day s).

Definition ring_state_zero : bool * bool * Z * option Z * bool :=
  (false, false, 0, None, false).

(** The invariant of the ring cycle: at most [MAX_SNOOZES] snoozes are
    counted, and the alarm does not ring once it is dismissed for the day. *)
Definition ring_cycle_inv (s : state) : Prop :=
  0 <= snooze_count s <= MAX_SNOOZES /\
  (alarm_ringing s = true -> alarm_done_for_day s = false).

(** ** The display *)

Definition USE_12_HOUR : bool := true.

(** What [update_clock] writes to the seven-segment display: the text it
    prints and the colon. *)
Record Display := mkDisplay { text : string; colon : bool }.

(** [f"{n:02d}"]: the decimal numeral, padded with a zero to two
    characters. *)
Definition py_format_02d (n : Z) : string :=
  let digits := NilZero.string_of_int (Z.to_int n) in
  if (String.length digits <? 2)%nat then String "0" digits else digits.

(** [sw_alarm_value] is the value read from the alarm-mode pin, [now] the
    clock value read by [get_current_seconds]. *)
Definition update_clock (sw_alarm_value : bool) (now : Q) (s : state) : Display :=
  if negb sw_alarm_value then
    let hours := alarm_seconds s / 3600 in
    let minutes := (alarm_seconds s mod 3600) / 60 in
    mkDisplay (py_format_02d hours ++ py_format_02d minutes) true
  else
    let current := get_current_seconds now s in
    let hours24 := current / 3600 in
    let minutes := (current mod 3600) / 60 in
    let seconds := current mod 60 in
    let is_pm := 12 <=? hours24 in
    let hours :=
      if USE_12_HOUR then
        let hours := hours24 mod 12 in
        if hours =? 0 then 12 else hours
      else hours24 in
    mkDisplay (py_format_02d hours ++ py_format_02d minutes)
      (if USE_12_HOUR && is_pm then true else seconds mod 2 =? 0).

(** ** Invariants of the reachable states *)

(** The daily alarm is in exactly one of four phases: not fired yet; fired
    and ringing; fired and snoozed with a ring pending; fired and dismissed
    after two snoozes. *)
Definition phase_inv (s : state) : Prop :=
  (initial_fired_today s = false /\ alarm_ringing s = false /\
   snooze_count s = 0 /\ snooze_target s = None /\
   alarm_done_for_day s = false) \/
  (initial_fired_today s = true /\ alarm_ringing s = true /\
   snooze_target s = None /\ alarm_done_for_day s = false /\
   0 <= snooze_count s <= 2) \/
  (initial_fired_today s = true /\ alarm_ringing s = false /\
   snooze_target s <> None /\ alarm_done_for_day s = false /\
   1 <= snooze_count s <= 2) \/
  (initial_fired_today s = true /\ alarm_ringing s = false /\
   snooze_target s = None /\ alarm_done_for_day s = true /\
   snooze_count s = 2).

(** The mute flag is 0 or 1, the radio was last told what the flag says, and
    while the alarm rings the radio is unmuted. *)
Definition audio_inv (s : state) : Prop :=
  (mute s = 0 \/ mute s = 1) /\
  (muted (radio s) = None \/ muted (radio s) = Some (py_bool (mute s))) /\
  (alarm_ringing s = true -> mute s = 0 /\ muted (radio s) = Some false).

(** Times of day are seconds since midnight; the station is on the FM band
    and is the frequency the radio was constructed with. *)
Definition range_inv (s : state) : Prop :=
  0 <= base_seconds s < 86400 /\
  0 <= alarm_seconds s < 86400 /\
  (forall target : Z, snooze_target s = Some target -> 0 <= target < 86400) /\
  880 <= station s <= 1080 /\
  freq (radio s) = station s.

Definition is_mute_toggle (r : Request) : bool :=
  match r with
  | GET_mute_toggle _ => true
  | _ => false
  end.

(** Repeated presses of the alarm adjustment buttons. *)
Fixpoint increment_alarm_hours (n : nat) (s : state) : state :=
  match n with
  | O => s
  | S n' => increment_alarm_hours n' (increment_alarm_hour s)
  end.

Fixpoint increment_alarm_minutes (n : nat) (s : state) : state :=
  match n with
  | O => s
  | S n' => increment_alarm_minutes n' (increment_alarm_minute s)
  end.

(** ** Properties *)

Ltac unfold_ops :=
  unfold handle_mute_press, cancel_alarm_process_for_today,
    stop_alarm_audio_mute, start_alarm_ring, reset_daily_alarm_state,
    alarm_disable_reset, step_station, apply_station, increment_hour,
    increment_minute, increment_alarm_hour, increment_alarm_minute,
    set_clock, set_alarm, get_current_seconds in *.

Ltac split_ifs :=
  repeat match goal with
    | |- context [if ?a <? ?b then _ else _] => destruct (Z.ltb_spec a b)
    | |- context [if ?b then _ else _] => destruct b eqn:?
    | |- context [match ?o with Some _ => _ | None => _ end] => destruct o eqn:?
    end.

Ltac bool_hyps :=
  repeat match goal with
    | H : _ && _ = true |- _ => apply andb_prop in H; destruct H
    | H : negb _ = true |- _ => apply negb_true_iff in H
    | H : negb _ = false |- _ => apply negb_false_iff in H
    | H : (_ =? _) = true |- _ => apply Z.eqb_eq in H
    | H : (_ =? _) = false |- _ => apply Z.eqb_neq in H
    end.

Lemma py_int_of_float_whole (q : Q) (m : Z) :
  (q == inject_Z m)%Q -> py_int_of_float q = m.
Proof.
  unfold py_int_of_float, Qeq. cbn. intros H.
  rewrite Z.mul_1_r in H. rewrite H. apply Z.quot_mul. discriminate.
Qed.

Lemma py_int_of_float_same (t : Q) : py_int_of_float (t - t) = 0.
Proof. apply py_int_of_float_whole. cbn. ring. Qed.

(** C7: [set_clock] and [set_alarm] store the three components, each
    reduced modulo its range, and [set_clock] rebases the reference; a read
    straight after the set returns the stored value, which for an hour in
    0..23 and a minute in 0..59 (seconds left at 0) is hh*3600 + mm*60. *)
Theorem set_then_read :
  forall (s : state) (hh mm ss : Z) (now : Q),
    base_seconds (set_clock hh mm ss now s)
      = (hh mod 24) * 3600 + (mm mod 60) * 60 + ss mod 60 /\
    start_monotonic (set_clock hh mm ss now s) = now /\
    alarm_seconds (set_alarm hh mm ss s)
      = (hh mod 24) * 3600 + (mm mod 60) * 60 + ss mod 60 /\
    get_current_seconds now (set_clock hh mm ss now s)
      = (hh mod 24) * 3600 + (mm mod 60) * 60 + ss mod 60 /\
    (0 <= hh <= 23 -> 0 <= mm <= 59 ->
       get_current_seconds now (set_clock hh mm 0 now s) = hh * 3600 + mm * 60 /\
       alarm_seconds (set_alarm hh mm 0 s) = hh * 3600 + mm * 60).
Proof.
  intros s hh mm ss now.
  assert (Hh := Z.mod_pos_bound hh 24 eq_refl).
  assert (Hm := Z.mod_pos_bound mm 60 eq_refl).
  assert (Hs := Z.mod_pos_bound ss 60 eq_refl).
  repeat split; try reflexivity.
  - unfold get_current_seconds, set_clock; cbn.
    rewrite py_int_of_float_same, Z.add_0_r. apply Z.mod_small. lia.
  - unfold get_current_seconds, set_clock; cbn.
    rewrite py_int_of_float_same, Z.add_0_r.
    rewrite (Z.mod_small hh), (Z.mod_small mm) by lia.
    change (0 mod 60) with 0. rewrite Z.mod_small; lia.
  - unfold set_alarm; cbn.
    rewrite (Z.mod_small hh), (Z.mod_small mm) by lia.
    change (0 mod 60) with 0. lia.
Qed.

Lemma set_then_read_witness :
  get_current_seconds 5 (set_clock 7 30 0 5 (initial_state 0)) = 7 * 3600 + 30 * 60 /\
  alarm_seconds (set_alarm 7 30 0 (initial_state 0)) = 7 * 3600 + 30 * 60.
Proof.
  apply (set_then_read (initial_state 0) 7 30 0 5); lia.
Defined.

(** *** Clock increments *)








(** *** The ring cycle *)

Section RingCycle.

Variable py_int : string -> option Z.

Ltac ring_cycle s :=
  unfold_ops; unfold ring_cycle_inv, MAX_SNOOZES in *; destruct s; cbn in *;
  split_ifs; cbn in *; bool_hyps; intuition (try congruence; try lia).

Lemma inv_handle_mute_press (now : Q) (s : state) :
  ring_cycle_inv s -> ring_cycle_inv (handle_mute_press now s).
Proof. intros H. ring_cycle s. Qed.

Lemma inv_step_station (step : Z) (s : state) :
  ring_cycle_inv s -> ring_cycle_inv (step_station step s).
Proof. intros H. ring_cycle s. Qed.

Lemma inv_serve (r : Request) (s : state) :
  ring_cycle_inv s -> ring_cycle_inv (snd (serve py_int r s)).
Proof.
  intros H.
  destruct r; cbn [serve snd route_status];
    auto using inv_handle_mute_press, inv_step_station;
    try solve [ring_cycle s].
  - unfold route_set_clock. split_ifs; cbn [snd]; exact H.
  - unfold route_set_alarm. split_ifs; cbn [snd]; exact H.
Qed.

Lemma inv_server_poll (rs : list Request) :
  forall s, ring_cycle_inv s -> ring_cycle_inv (server_poll py_int rs s).
Proof.
  induction rs as [|r rs IH]; intros s H; cbn; auto using inv_serve.
Qed.

Lemma inv_rollover_detection (cur : Z) (s : state) :
  ring_cycle_inv s -> ring_cycle_inv (rollover_detection cur s).
Proof. intros H. unfold rollover_detection. ring_cycle s. Qed.

Lemma inv_arming_override (en : bool) (s : state) :
  ring_cycle_inv s -> ring_cycle_inv (arming_override en s).
Proof. intros H. unfold arming_override. ring_cycle s. Qed.

Lemma inv_hardware_buttons (i : inputs) (s : state) :
  ring_cycle_inv s -> ring_cycle_inv (hardware_buttons i s).
Proof.
  intros H. unfold hardware_buttons.
  assert (H1 : ring_cycle_inv
    (if negb (but_mute i) then handle_mute_press (now_mute i) s else s))
    by (destruct (negb (but_mute i)); auto using inv_handle_mute_press).
  revert H1. generalize (if negb (but_mute i) then handle_mute_press (now_mute i) s else s).
  clear s H. intros s H.
  assert (H1 : ring_cycle_inv (if negb (stn_up i) then step_station 1 s else s))
    by (destruct (negb (stn_up i)); auto using inv_step_station).
  revert H1. generalize (if negb (stn_up i) then step_station 1 s else s).
  clear s H. intros s H.
  assert (H1 : ring_cycle_inv (if negb (stn_down i) then step_station (-1) s else s))
    by (destruct (negb (stn_down i)); auto using inv_step_station).
  revert H1. generalize (if negb (stn_down i) then step_station (-1) s else s).
  clear s H. intros s H.
  ring_cycle s.
Qed.

Lemma inv_alarm_snooze_logic (en : bool) (cur : Z) (s : state) :
  ring_cycle_inv s -> ring_cycle_inv (alarm_snooze_logic en cur s).
Proof.
  intros H. unfold alarm_snooze_logic. ring_cycle s.
Qed.

Lemma reachable_inv (s : state) : reachable py_int s -> ring_cycle_inv s.
Proof.
  induction 1;
    auto using inv_serve, inv_rollover_detection, inv_arming_override,
      inv_hardware_buttons, inv_alarm_snooze_logic.
  unfold ring_cycle_inv, MAX_SNOOZES; cbn. intuition (try congruence; lia).
Qed.

Lemma reachable_server_poll (rs : list Request) :
  forall s, reachable py_int s -> reachable py_int (server_poll py_int rs s).
Proof.
  induction rs as [|r rs IH]; intros s H; cbn; auto using reach_serve.
Qed.

Lemma reachable_main_loop_body (i : inputs) (s : state) :
  reachable py_int s -> reachable py_int (main_loop_body py_int i s).
Proof.
  intros H. unfold main_loop_body.
  apply reach_alarm, reach_buttons, reach_override, reach_rollover,
    reachable_server_poll, H.
Qed.

Lemma reachable_main_loop (ins : list inputs) :
  forall s, reachable py_int s -> reachable py_int (main_loop py_int ins s).
Proof.
  induction ins as [|i ins IH]; intros s H; cbn;
    auto using reachable_main_loop_body.
Qed.

(** C4: in every reachable state [snooze_count] is 0, 1 or 2; the states are
    those reached from the initial one through served requests (the mute
    command among them), the rollover block, the arming override, the
    hardware buttons and the alarm and snooze logic. *)
Theorem snooze_count_at_most_two :
  forall s : state, reachable py_int s -> 0 <= snooze_count s <= 2.
Proof. intros s H. apply (reachable_inv s H). Qed.

(** C5: in every reachable state [alarm_ringing] and [alarm_done_for_day]
    are not both true. *)
Theorem ringing_excludes_dismissed :
  forall s : state,
    reachable py_int s ->
    ~ (alarm_ringing s = true /\ alarm_done_for_day s = true).
Proof.
  intros s H [Hr Hd]. destruct (reachable_inv s H) as [_ Hx].
  rewrite (Hx Hr) in Hd. discriminate.
Qed.

(** *** Mute while ringing *)

Lemma handle_mute_press_snooze (now : Q) (s : state) :
  alarm_ringing s = true -> snooze_count s < MAX_SNOOZES ->
  let s' := handle_mute_press now s in
  snooze_count s' = snooze_count s + 1 /\
  snooze_target s' = Some ((get_current_seconds now s + 540) mod 86400) /\
  alarm_ringing s' = false /\
  alarm_done_for_day s' = alarm_done_for_day s /\
  mute s' = 1 /\ muted (radio s') = Some true.
Proof.
  intros Hr Hc. unfold handle_mute_press. rewrite Hr.
  destruct (Z.ltb_spec (snooze_count s) MAX_SNOOZES); [|lia].
  cbn. repeat split.
Qed.

Lemma handle_mute_press_dismiss (now : Q) (s : state) :
  alarm_ringing s = true -> MAX_SNOOZES <= snooze_count s ->
  let s' := handle_mute_press now s in
  snooze_count s' = snooze_count s /\
  snooze_target s' = None /\
  alarm_ringing s' = false /\
  alarm_done_for_day s' = true /\
  mute s' = 1 /\ muted (radio s') = Some true.
Proof.
  intros Hr Hc. unfold handle_mute_press. rewrite Hr.
  destruct (Z.ltb_spec (snooze_count s) MAX_SNOOZES); [lia|].
  cbn. repeat split.
Qed.

Lemma snoozed_ring (cur target : Z) (s : state) :
  alarm_done_for_day s = false ->
  snooze_target s = Some target -> cur / 60 = target / 60 ->
  let s' := alarm_snooze_logic true cur s in
  alarm_ringing s' = true /\ snooze_target s' = None /\
  snooze_count s' = snooze_count s /\ alarm_done_for_day s' = false /\
  mute s' = 0 /\ muted (radio s') = Some false.
Proof.
  intros Hd Ht Hm. unfold alarm_snooze_logic. rewrite Hd. cbn [negb andb].
  destruct (negb (initial_fired_today s) && (cur / 60 =? alarm_seconds s / 60)).
  - cbn. repeat split; assumption.
  - rewrite Ht, Hm, Z.eqb_refl. cbn. repeat split; assumption.
Qed.

(** C1 (amended): from a reachable state in which the alarm rings and no
    snooze is used yet, the first mute snoozes (count 1, target 540 seconds
    after the current time modulo 86400, ringing cleared, audio muted), the
    snoozed ring at the target's minute rings again, the second mute snoozes
    with count 2, the second snoozed ring rings again, and the third mute
    clears ringing and the target, dismisses for the day and mutes. *)
Theorem three_mutes :
  forall (s : state) (now1 now2 now3 : Q) (cur2 cur3 : Z),
    reachable py_int s -> alarm_ringing s = true -> snooze_count s = 0 ->
    let s1 := handle_mute_press now1 s in
    let r2 := alarm_snooze_logic true cur2 s1 in
    let s2 := handle_mute_press now2 r2 in
    let r3 := alarm_snooze_logic true cur3 s2 in
    let s3 := handle_mute_press now3 r3 in
    cur2 / 60 = ((get_current_seconds now1 s + 540) mod 86400) / 60 ->
    cur3 / 60 = ((get_current_seconds now2 r2 + 540) mod 86400) / 60 ->
    (snooze_count s1 = 1 /\
     snooze_target s1 = Some ((get_current_seconds now1 s + 540) mod 86400) /\
     alarm_ringing s1 = false /\ mute s1 = 1 /\ muted (radio s1) = Some true) /\
    alarm_ringing r2 = true /\
    (snooze_count s2 = 2 /\
     snooze_target s2 = Some ((get_current_seconds now2 r2 + 540) mod 86400) /\
     alarm_ringing s2 = false /\ mute s2 = 1 /\ muted (radio s2) = Some true) /\
    alarm_ringing r3 = true /\
    (alarm_ringing s3 = false /\ snooze_target s3 = None /\
     alarm_done_for_day s3 = true /\ mute s3 = 1 /\ muted (radio s3) = Some true).
Proof.
  intros s now1 now2 now3 cur2 cur3 Hreach Hring Hcount s1 r2 s2 r3 s3 Hm2 Hm3.
  destruct (reachable_inv s Hreach) as [_ Hnd]. specialize (Hnd Hring).
  destruct (handle_mute_press_snooze now1 s Hring) as (C1 & T1 & R1 & D1 & M1 & A1).
  { rewrite Hcount. reflexivity. }
  fold s1 in C1, T1, R1, D1, M1, A1. rewrite Hnd in D1. rewrite Hcount in C1.
  destruct (snoozed_ring cur2 _ s1 D1 T1 Hm2) as (R2 & _ & C2 & D2 & _).
  fold r2 in R2, C2, D2. rewrite C1 in C2.
  destruct (handle_mute_press_snooze now2 r2 R2) as (C3 & T3 & R3 & D3 & M3 & A3).
  { rewrite C2. reflexivity. }
  fold s2 in C3, T3, R3, D3, M3, A3. rewrite D2 in D3. rewrite C2 in C3.
  destruct (snoozed_ring cur3 _ s2 D3 T3 Hm3) as (R4 & _ & C4 & D4 & _).
  fold r3 in R4, C4, D4. rewrite C3 in C4.
  destruct (handle_mute_press_dismiss now3 r3 R4) as (_ & T5 & R5 & D5 & M5 & A5).
  { rewrite C4. unfold MAX_SNOOZES. lia. }
  fold s3 in T5, R5, D5, M5, A5.
  repeat split; assumption.
Qed.

(** *** Blocks that leave the ring cycle alone *)

Lemma ring_state_eq (s s' : state) :
  ring_state s' = ring_state s ->
  alarm_ringing s' = alarm_ringing s /\
  initial_fired_today s' = initial_fired_today s /\
  snooze_count s' = snooze_count s /\
  snooze_target s' = snooze_target s /\
  alarm_done_for_day s' = alarm_done_for_day s.
Proof. unfold ring_state. intros H. injection H. auto. Qed.

Lemma ring_state_handle_mute_press (now : Q) (s : state) :
  alarm_ringing s = false ->
  ring_state (handle_mute_press now s) = ring_state s.
Proof. intros H. unfold handle_mute_press. rewrite H. reflexivity. Qed.

Lemma ring_state_serve (r : Request) (s : state) :
  alarm_ringing s = false ->
  ring_state (snd (serve py_int r s)) = ring_state s.
Proof.
  intros H.
  destruct r; cbn [serve snd route_status];
    auto using ring_state_handle_mute_press.
  - unfold route_set_clock. split_ifs; reflexivity.
  - unfold route_set_alarm. split_ifs; reflexivity.
Qed.

Lemma ring_state_server_poll (rs : list Request) :
  forall s : state,
    alarm_ringing s = false ->
    ring_state (server_poll py_int rs s) = ring_state s.
Proof.
  induction rs as [|r rs IH]; intros s H; cbn [server_poll]; [reflexivity|].
  assert (E := ring_state_serve r s H).
  rewrite IH; [exact E|].
  apply ring_state_eq in E. destruct E as [E _]. congruence.
Qed.

Lemma ring_state_hardware_buttons (i : inputs) (s : state) :
  alarm_ringing s = false ->
  ring_state (hardware_buttons i s) = ring_state s.
Proof.
  intros H. unfold hardware_buttons.
  destruct (negb (but_mute i)), (negb (stn_up i)), (negb (stn_down i)),
    (negb (sw_alarm i)), (negb (but_hours i)), (negb (but_mins i));
    first [reflexivity | exact (ring_state_handle_mute_press _ _ H)].
Qed.

Lemma prev_server_poll (rs : list Request) :
  forall s : state,
    prev_current_seconds (server_poll py_int rs s) = prev_current_seconds s.
Proof.
  induction rs as [|r rs IH]; intros s; cbn [server_poll]; [reflexivity|].
  rewrite IH. destruct r; cbn [serve snd route_status]; try reflexivity.
  - unfold handle_mute_press, MAX_SNOOZES. split_ifs; reflexivity.
  - unfold route_set_clock. split_ifs; reflexivity.
  - unfold route_set_alarm. split_ifs; reflexivity.
Qed.

Lemma ring_state_rollover_detection (cur : Z) (s : state) :
  match prev_current_seconds s with
  | Some prev => cur <? prev
  | None => false
  end = false ->
  ring_state (rollover_detection cur s) = ring_state s.
Proof.
  unfold rollover_detection. destruct (prev_current_seconds s) as [prev|].
  - intros ->. reflexivity.
  - reflexivity.
Qed.

Lemma ring_state_alarm_snooze_logic (en : bool) (cur : Z) (s : state) :
  en = false \/ alarm_done_for_day s = true \/
  (initial_fired_today s = true /\ snooze_target s = None) ->
  alarm_snooze_logic en cur s = s.
Proof.
  unfold alarm_snooze_logic. intros [-> | [-> | [Hf Ht]]].
  - reflexivity.
  - rewrite andb_false_r. reflexivity.
  - rewrite Hf. cbn [negb andb]. rewrite Ht.
    destruct (en && negb (alarm_done_for_day s)); reflexivity.
Qed.

(** An armed iteration within the day leaves the ring cycle as it is when
    the alarm is silent and either dismissed or fired with no snooze
    pending. *)
Lemma ring_state_main_loop_body (i : inputs) (s : state) :
  alarm_ringing s = false ->
  alarm_done_for_day s = true \/
  (initial_fired_today s = true /\ snooze_target s = None) ->
  sw_alarm_enable i = false -> day_rolled py_int i s = false ->
  ring_state (main_loop_body py_int i s) = ring_state s.
Proof.
  intros Hr Hq Hen Hroll. unfold main_loop_body, day_rolled in *.
  rewrite Hen. cbn [negb arming_override].
  assert (E1 := ring_state_server_poll (requests i) s Hr).
  set (s1 := server_poll py_int (requests i) s) in *.
  set (cur := get_current_seconds (now_cur i) s1) in *.
  assert (E2 := ring_state_rollover_detection cur s1 Hroll).
  set (s2 := rollover_detection cur s1) in *.
  assert (E12 : ring_state s2 = ring_state s) by congruence.
  destruct (ring_state_eq _ _ E12) as (A & B & C & D & E).
  assert (E3 := ring_state_hardware_buttons i s2 ltac:(congruence)).
  set (s3 := hardware_buttons i s2) in *.
  assert (E13 : ring_state s3 = ring_state s) by congruence.
  destruct (ring_state_eq _ _ E13) as (A' & B' & C' & D' & E').
  rewrite ring_state_alarm_snooze_logic; [exact E13|].
  right. destruct Hq as [Hq | [Hq1 Hq2]]; [left | right; split]; congruence.
Qed.

Lemma done_alarm_snooze_logic (en : bool) (cur : Z) (s : state) :
  alarm_done_for_day (alarm_snooze_logic en cur s) = alarm_done_for_day s.
Proof.
  unfold alarm_snooze_logic. destruct s; cbn. split_ifs; reflexivity.
Qed.

Lemma ring_state_main_loop (ins : list inputs) :
  forall s : state,
    alarm_ringing s = false ->
    alarm_done_for_day s = true \/
    (initial_fired_today s = true /\ snooze_target s = None) ->
    armed_same_day py_int ins s ->
    ring_state (main_loop py_int ins s) = ring_state s.
Proof.
  induction ins as [|i ins IH]; intros s Hr Hq Ha; cbn [main_loop]; [reflexivity|].
  destruct Ha as (Hen & Hroll & Ha).
  assert (E := ring_state_main_loop_body i s Hr Hq Hen Hroll).
  destruct (ring_state_eq _ _ E) as (A & B & C & D & F).
  rewrite IH; [exact E | congruence | | exact Ha].
  destruct Hq as [Hq | [Hq1 Hq2]]; [left | right; split]; congruence.
Qed.

(** An iteration that sees the clock wrap, or finds the enable switch open,
    ends with the alarm not dismissed. *)
Lemma reset_clears_dismissal (i : inputs) (s : state) :
  sw_alarm_enable i = true \/ day_rolled py_int i s = true ->
  alarm_done_for_day (main_loop_body py_int i s) = false.
Proof.
  intros H. unfold main_loop_body, day_rolled in *.
  rewrite done_alarm_snooze_logic.
  set (s1 := server_poll py_int (requests i) s) in *.
  set (cur := get_current_seconds (now_cur i) s1) in *.
  assert (Hz : ring_state
            (arming_override (negb (sw_alarm_enable i)) (rollover_detection cur s1))
          = ring_state_zero
          \/ (sw_alarm_enable i = false /\ ring_state (rollover_detection cur s1)
              = ring_state_zero)).
  { destruct H as [H | H].
    - left. rewrite H. reflexivity.
    - destruct (sw_alarm_enable i); [left; reflexivity | right; split; [reflexivity|]].
      unfold rollover_detection. destruct (prev_current_seconds s1); [|discriminate].
      rewrite H. reflexivity. }
  assert (Hz' : ring_state
            (arming_override (negb (sw_alarm_enable i)) (rollover_detection cur s1))
          = ring_state_zero).
  { destruct Hz as [Hz | [Hen Hz]]; [exact Hz | rewrite Hen; exact Hz]. }
  clear Hz. set (s3 := arming_override _ _) in *.
  assert (Hr : alarm_ringing s3 = false).
  { unfold ring_state, ring_state_zero in Hz'. congruence. }
  assert (E := ring_state_hardware_buttons i s3 Hr).
  rewrite Hz' in E. unfold ring_state, ring_state_zero in E. congruence.
Qed.

(** C6: from a reachable state with [alarm_done_for_day] set, iterations of
    the main loop with the alarm armed and no clock wrap never start the
    alarm, whatever the clock, the alarm target and the requests are, and
    the dismissal stays; an iteration that sees the clock wrap or finds the
    alarm disarmed lifts the dismissal. *)
Theorem dismissed_until_reset :
  forall (s : state) (ins : list inputs),
    reachable py_int s -> alarm_done_for_day s = true ->
    (armed_same_day py_int ins s ->
       alarm_ringing (main_loop py_int ins s) = false /\
       alarm_done_for_day (main_loop py_int ins s) = true) /\
    (forall i : inputs,
       sw_alarm_enable i = true \/ day_rolled py_int i s = true ->
       alarm_done_for_day (main_loop_body py_int i s) = false).
Proof.
  intros s ins Hreach Hd. split.
  - intros Ha.
    assert (Hr : alarm_ringing s = false).
    { destruct (reachable_inv s Hreach) as [_ Hx].
      destruct (alarm_ringing s); [|reflexivity].
      rewrite Hx in Hd by reflexivity. discriminate. }
    assert (E := ring_state_main_loop ins s Hr (or_introl Hd) Ha).
    destruct (ring_state_eq _ _ E) as (A & _ & _ & _ & F).
    split; congruence.
  - intros i. apply reset_clears_dismissal.
Qed.


(** *** The alarm target after the alarm has fired *)

Lemma handle_mute_press_alarm (a : Z) (now : Q) (s : state) :
  handle_mute_press now (set_alarm_seconds a s)
  = set_alarm_seconds a (handle_mute_press now s).
Proof.
  unfold handle_mute_press.
  change (alarm_ringing (set_alarm_seconds a s)) with (alarm_ringing s).
  change (snooze_count (set_alarm_seconds a s)) with (snooze_count s).
  change (mute (set_alarm_seconds a s)) with (mute s).
  destruct (alarm_ringing s), (snooze_count s <? MAX_SNOOZES),
    (py_bool (mute s)); reflexivity.
Qed.

Lemma serve_alarm (r : Request) (a : Z) (s : state) :
  exists a' : Z,
    snd (serve py_int r (set_alarm_seconds a s))
    = set_alarm_seconds a' (snd (serve py_int r s)).
Proof.
  destruct r; cbn [serve snd route_status];
    try (exists a; first [reflexivity | apply handle_mute_press_alarm]).
  - eexists. reflexivity.
  - eexists. reflexivity.
  - exists a. unfold route_set_clock. split_ifs; reflexivity.
  - unfold route_set_alarm. split_ifs; cbn [snd];
      first [exists a; reflexivity | eexists; reflexivity].
Qed.

Lemma server_poll_alarm (rs : list Request) :
  forall (a : Z) (s : state),
    exists a' : Z,
      server_poll py_int rs (set_alarm_seconds a s)
      = set_alarm_seconds a' (server_poll py_int rs s).
Proof.
  induction rs as [|r rs IH]; intros a s; cbn [server_poll].
  - exists a. reflexivity.
  - destruct (serve_alarm r a s) as [a1 ->]. apply IH.
Qed.

Lemma hardware_buttons_alarm (i : inputs) (a : Z) (s : state) :
  exists a' : Z,
    hardware_buttons i (set_alarm_seconds a s)
    = set_alarm_seconds a' (hardware_buttons i s).
Proof.
  unfold hardware_buttons.
  destruct (negb (but_mute i)), (negb (stn_up i)), (negb (stn_down i)),
    (negb (sw_alarm i)), (negb (but_hours i)), (negb (but_mins i));
    rewrite ?handle_mute_press_alarm; eexists; reflexivity.
Qed.

Lemma alarm_snooze_logic_alarm (en : bool) (cur a : Z) (s : state) :
  initial_fired_today s = true ->
  alarm_snooze_logic en cur (set_alarm_seconds a s)
  = set_alarm_seconds a (alarm_snooze_logic en cur s).
Proof.
  intros H. unfold alarm_snooze_logic.
  change (alarm_done_for_day (set_alarm_seconds a s)) with (alarm_done_for_day s).
  change (initial_fired_today (set_alarm_seconds a s)) with (initial_fired_today s).
  rewrite H. cbn [negb andb].
  change (snooze_target (set_alarm_seconds a s)) with (snooze_target s).
  destruct (en && negb (alarm_done_for_day s)); [|reflexivity].
  destruct (snooze_target s) as [target|]; [|reflexivity].
  destruct (cur / 60 =? target / 60); reflexivity.
Qed.

Lemma fired_serve (r : Request) (s : state) :
  initial_fired_today (snd (serve py_int r s)) = initial_fired_today s.
Proof.
  destruct r; cbn [serve snd route_status]; try reflexivity.
  - unfold handle_mute_press. split_ifs; reflexivity.
  - unfold route_set_clock. split_ifs; reflexivity.
  - unfold route_set_alarm. split_ifs; reflexivity.
Qed.

Lemma fired_server_poll (rs : list Request) :
  forall s : state,
    initial_fired_today (server_poll py_int rs s) = initial_fired_today s.
Proof.
  induction rs as [|r rs IH]; intros s; cbn [server_poll]; [reflexivity|].
  rewrite IH. apply fired_serve.
Qed.

Lemma fired_hardware_buttons (i : inputs) (s : state) :
  initial_fired_today (hardware_buttons i s) = initial_fired_today s.
Proof.
  unfold hardware_buttons.
  assert (H : forall now, initial_fired_today (handle_mute_press now s)
                          = initial_fired_today s).
  { intros now. unfold handle_mute_press. split_ifs; reflexivity. }
  destruct (negb (but_mute i)), (negb (stn_up i)), (negb (stn_down i)),
    (negb (sw_alarm i)), (negb (but_hours i)), (negb (but_mins i));
    first [reflexivity | apply H].
Qed.

Lemma fired_alarm_snooze_logic (en : bool) (cur : Z) (s : state) :
  initial_fired_today s = true ->
  initial_fired_today (alarm_snooze_logic en cur s) = true.
Proof.
  intros H. unfold alarm_snooze_logic. rewrite H. cbn [negb andb].
  split_ifs; assumption.
Qed.

Lemma day_rolled_alarm (i : inputs) (a : Z) (s : state) :
  day_rolled py_int i (set_alarm_seconds a s) = day_rolled py_int i s.
Proof.
  unfold day_rolled.
  destruct (server_poll_alarm (requests i) a s) as [a1 ->]. reflexivity.
Qed.

(** After the alarm has fired, an armed iteration within the day runs the
    same whatever the alarm target is. *)
Lemma main_loop_body_alarm (i : inputs) (a : Z) (s : state) :
  initial_fired_today s = true ->
  sw_alarm_enable i = false -> day_rolled py_int i s = false ->
  initial_fired_today (main_loop_body py_int i s) = true /\
  exists a' : Z,
    main_loop_body py_int i (set_alarm_seconds a s)
    = set_alarm_seconds a' (main_loop_body py_int i s).
Proof.
  intros Hf Hen Hroll. unfold main_loop_body, day_rolled in *.
  rewrite Hen. cbn [negb arming_override].
  destruct (server_poll_alarm (requests i) a s) as [a1 ->].
  assert (F1 := fired_server_poll (requests i) s).
  set (s1 := server_poll py_int (requests i) s) in *.
  change (get_current_seconds (now_cur i) (set_alarm_seconds a1 s1))
    with (get_current_seconds (now_cur i) s1).
  set (cur := get_current_seconds (now_cur i) s1) in *.
  assert (E2 : rollover_detection cur (set_alarm_seconds a1 s1)
               = set_alarm_seconds a1 (rollover_detection cur s1)).
  { unfold rollover_detection.
    change (prev_current_seconds (set_alarm_seconds a1 s1))
      with (prev_current_seconds s1).
    destruct (prev_current_seconds s1); [rewrite Hroll|]; reflexivity. }
  assert (F2 : initial_fired_today (rollover_detection cur s1) = true).
  { unfold rollover_detection.
    destruct (prev_current_seconds s1); [rewrite Hroll|]; cbn; congruence. }
  rewrite E2. set (s2 := rollover_detection cur s1) in *.
  destruct (hardware_buttons_alarm i a1 s2) as [a2 ->].
  assert (F3 := fired_hardware_buttons i s2).
  set (s3 := hardware_buttons i s2) in *.
  assert (F3' : initial_fired_today s3 = true) by congruence.
  split.
  - apply fired_alarm_snooze_logic, F3'.
  - exists a2. apply alarm_snooze_logic_alarm, F3'.
Qed.

Lemma main_loop_alarm (ins : list inputs) :
  forall (a : Z) (s : state),
    initial_fired_today s = true ->
    armed_same_day py_int ins (set_alarm_seconds a s) ->
    initial_fired_today (main_loop py_int ins s) = true /\
    exists a' : Z,
      main_loop py_int ins (set_alarm_seconds a s)
      = set_alarm_seconds a' (main_loop py_int ins s).
Proof.
  induction ins as [|i ins IH]; intros a s Hf Ha; cbn [main_loop].
  - split; [exact Hf | exists a; reflexivity].
  - destruct Ha as (Hen & Hroll & Ha). rewrite day_rolled_alarm in Hroll.
    destruct (main_loop_body_alarm i a s Hf Hen Hroll) as (Hf' & a1 & E).
    rewrite E in *. apply IH; assumption.
Qed.

Lemma armed_same_day_alarm (ins : list inputs) :
  forall (a : Z) (s : state),
    initial_fired_today s = true ->
    armed_same_day py_int ins (set_alarm_seconds a s) ->
    armed_same_day py_int ins s.
Proof.
  induction ins as [|i ins IH]; intros a s Hf Ha; cbn [armed_same_day] in *;
    [exact I|].
  destruct Ha as (Hen & Hroll & Ha). rewrite day_rolled_alarm in Hroll.
  destruct (main_loop_body_alarm i a s Hf Hen Hroll) as (Hf' & a1 & E).
  rewrite E in Ha. eauto.
Qed.

(** C10: [set_alarm] changes [alarm_seconds] and nothing else.  Once the
    alarm has fired today, for armed iterations with no clock wrap the ring
    cycle after [set_alarm] is the one the program would go through without
    it: the new target starts no ring, and [initial_fired_today] stays set;
    in particular a silent alarm with no snooze pending stays silent. *)
Theorem set_alarm_frame :
  forall (s : state) (hh mm ss : Z) (ins : list inputs),
    let s' := set_alarm hh mm ss s in
    (station s' = station s /\ mute s' = mute s /\ radio s' = radio s /\
     base_seconds s' = base_seconds s /\
     start_monotonic s' = start_monotonic s /\
     alarm_ringing s' = alarm_ringing s /\
     initial_fired_today s' = initial_fired_today s /\
     snooze_count s' = snooze_count s /\
     snooze_target s' = snooze_target s /\
     alarm_done_for_day s' = alarm_done_for_day s /\
     prev_current_seconds s' = prev_current_seconds s) /\
    (initial_fired_today s = true -> armed_same_day py_int ins s' ->
       ring_state (main_loop py_int ins s') = ring_state (main_loop py_int ins s) /\
       initial_fired_today (main_loop py_int ins s') = true /\
       (alarm_ringing s = false -> snooze_target s = None ->
          alarm_ringing (main_loop py_int ins s') = false)).
Proof.
  intros s hh mm ss ins s'. split.
  - repeat split.
  - intros Hf Ha. subst s'. unfold set_alarm in *.
    set (a := (hh mod 24) * 3600 + (mm mod 60) * 60 + ss mod 60) in *.
    destruct (main_loop_alarm ins a s Hf Ha) as (Hf' & a' & E).
    rewrite E. repeat split.
    + exact Hf'.
    + intros Hr Ht.
      assert (Ha' := armed_same_day_alarm ins a s Hf Ha).
      assert (R := ring_state_main_loop ins s Hr (or_intror (conj Hf Ht)) Ha').
      apply ring_state_eq in R. destruct R as (R & _).
      change (alarm_ringing (set_alarm_seconds a' (main_loop py_int ins s)))
        with (alarm_ringing (main_loop py_int ins s)).
      congruence.
Qed.

(** *** The set commands of the web API *)


End RingCycle.

(** *** Day rollover *)

Lemma wrap_count (a a' : Z) :
  a <= a' < a + 86400 ->
  (if a' mod 86400 <? a mod 86400 then 1 else 0) = a' / 86400 - a / 86400.
Proof.
  intros H.
  assert (Ea := Z.div_mod a 86400 ltac:(discriminate)).
  assert (Ea' := Z.div_mod a' 86400 ltac:(discriminate)).
  assert (Ba := Z.mod_pos_bound a 86400 eq_refl).
  assert (Ba' := Z.mod_pos_bound a' 86400 eq_refl).
  destruct (Z.ltb_spec (a' mod 86400) (a mod 86400)); lia.
Qed.

Lemma paced_clock (ts : list Q) :
  forall (s s' : state) (t : Q),
    start_monotonic s' = start_monotonic s -> paced s t ts -> paced s' t ts.
Proof.
  induction ts as [|t' ts IH]; intros s s' t E H; cbn [paced] in *; [exact I|].
  unfold elapsed in *. rewrite E. destruct H as [H1 H2]. split; [exact H1|].
  apply (IH s s' t' E H2).
Qed.

Lemma rollover_detection_clock (cur : Z) (s : state) :
  base_seconds (rollover_detection cur s) = base_seconds s /\
  start_monotonic (rollover_detection cur s) = start_monotonic s /\
  prev_current_seconds (rollover_detection cur s) = Some cur.
Proof.
  unfold rollover_detection.
  destruct (prev_current_seconds s) as [prev|];
    [destruct (cur <? prev)|]; repeat split.
Qed.

Lemma last_cons_default (ts : list Q) (t t' : Q) :
  List.last ts t' = match ts with [] => t' | _ => List.last ts t end.
Proof.
  destruct ts as [|u ts]; [reflexivity|].
  revert u. induction ts as [|v ts IH]; intros u; [reflexivity|].
  change (List.last (u :: v :: ts) t') with (List.last (v :: ts) t').
  change (List.last (u :: v :: ts) t) with (List.last (v :: ts) t).
  apply IH.
Qed.

Lemma rollovers_paced (ts : list Q) :
  forall (s : state) (t : Q),
    prev_current_seconds s = Some (get_current_seconds t s) ->
    paced s t ts ->
    rollovers ts s = day_of s (List.last ts t) - day_of s t.
Proof.
  induction ts as [|t' ts IH]; intros s t Hp H; cbn [rollovers paced] in *.
  - cbn [List.last]. lia.
  - destruct H as [H1 H2]. rewrite Hp.
    destruct (rollover_detection_clock (get_current_seconds t' s) s) as (B & S & P).
    set (s' := rollover_detection (get_current_seconds t' s) s) in *.
    assert (G : forall u, get_current_seconds u s' = get_current_seconds u s).
    { intros u. unfold get_current_seconds. rewrite B, S. reflexivity. }
    assert (D : forall u, day_of s' u = day_of s u).
    { intros u. unfold day_of, elapsed. rewrite B, S. reflexivity. }
    rewrite (IH s' t').
    + rewrite !D.
      assert (L : List.last (t' :: ts) t = List.last ts t').
      { destruct ts as [|u ts]; [reflexivity|].
        change (List.last (t' :: u :: ts) t) with (List.last (u :: ts) t).
        symmetry. apply (last_cons_default (u :: ts) t t'). }
      rewrite L.
      unfold get_current_seconds, day_of. fold (elapsed s t') (elapsed s t).
      rewrite wrap_count by lia. lia.
    + rewrite P, G. reflexivity.
    + apply (paced_clock ts s s' t' S H2).
Qed.

(** C3 (amended): the rollover block resets the daily state exactly when the
    current time is below the one of the previous iteration, never on the
    first iteration; the reset clears [alarm_ringing],
    [initial_fired_today], [snooze_count], [snooze_target] and
    [alarm_done_for_day] and leaves [mute] and the radio as they were.  For
    a clock that is not set and is read at least once a day the resets over
    a run of iterations number the midnights passed: one per 86400-second
    cycle. *)
Theorem rollover_once_per_day :
  forall (s : state) (cur : Z) (t : Q) (ts : list Q),
    (prev_current_seconds s = None ->
       rollover_detection cur s = set_prev_current_seconds (Some cur) s) /\
    (forall prev : Z,
       prev_current_seconds s = Some prev -> prev <= cur ->
       rollover_detection cur s = set_prev_current_seconds (Some cur) s) /\
    (forall prev : Z,
       prev_current_seconds s = Some prev -> cur < prev ->
       let s' := rollover_detection cur s in
       (alarm_ringing s' = false /\ initial_fired_today s' = false /\
        snooze_count s' = 0 /\ snooze_target s' = None /\
        alarm_done_for_day s' = false) /\
       prev_current_seconds s' = Some cur /\
       mute s' = mute s /\ radio s' = radio s) /\
    (prev_current_seconds s = None -> paced s t ts ->
       rollovers (t :: ts) s = day_of s (List.last ts t) - day_of s t).
Proof.
  intros s cur t ts. split; [|split; [|split]].
  - intros H. unfold rollover_detection. rewrite H. reflexivity.
  - intros prev H Hle. unfold rollover_detection. rewrite H.
    destruct (Z.ltb_spec cur prev); [lia | reflexivity].
  - intros prev H Hlt s'. subst s'. unfold rollover_detection. rewrite H.
    destruct (Z.ltb_spec cur prev); [|lia]. repeat split.
  - intros H Hp. cbn [rollovers]. rewrite H. cbn [Z.add].
    destruct (rollover_detection_clock (get_current_seconds t s) s) as (B & S & P).
    set (s' := rollover_detection (get_current_seconds t s) s) in *.
    assert (G : get_current_seconds t s' = get_current_seconds t s).
    { unfold get_current_seconds. rewrite B, S. reflexivity. }
    rewrite (rollovers_paced ts s' t).
    + unfold day_of, elapsed. rewrite B, S. reflexivity.
    + rewrite P, G. reflexivity.
    + apply (paced_clock ts s s' t S Hp).
Qed.

(** ** The properties on the example runs *)

Lemma ringing_example_reachable : reachable dec_int ringing_example.
Proof. apply reachable_main_loop, reach_init. Qed.

Lemma snoozed_example_reachable : reachable dec_int snoozed_example.
Proof. apply reachable_main_loop, ringing_example_reachable. Qed.

Lemma second_ring_example_reachable : reachable dec_int second_ring_example.
Proof. apply reachable_main_loop, snoozed_example_reachable. Qed.

Lemma dismissed_example_reachable : reachable dec_int dismissed_example.
Proof. apply reachable_main_loop, second_ring_example_reachable. Qed.

Lemma midnight_example_reachable : reachable dec_int midnight_example.
Proof. apply reachable_main_loop, reach_init. Qed.

Lemma three_mutes_witness :
  let s := ringing_example in
  let s1 := handle_mute_press 1 s in
  let r2 := alarm_snooze_logic true 23941 s1 in
  let s2 := handle_mute_press 542 r2 in
  let r3 := alarm_snooze_logic true 24482 s2 in
  let s3 := handle_mute_press 1083 r3 in
  (snooze_count s1 = 1 /\
   snooze_target s1 = Some ((get_current_seconds 1 s + 540) mod 86400) /\
   alarm_ringing s1 = false /\ mute s1 = 1 /\ muted (radio s1) = Some true) /\
  alarm_ringing r2 = true /\
  (snooze_count s2 = 2 /\
   snooze_target s2 = Some ((get_current_seconds 542 r2 + 540) mod 86400) /\
   alarm_ringing s2 = false /\ mute s2 = 1 /\ muted (radio s2) = Some true) /\
  alarm_ringing r3 = true /\
  (alarm_ringing s3 = false /\ snooze_target s3 = None /\
   alarm_done_for_day s3 = true /\ mute s3 = 1 /\ muted (radio s3) = Some true).
Proof.
  apply (three_mutes dec_int ringing_example 1 542 1083 23941 24482).
  - exact ringing_example_reachable.
  - vm_compute; reflexivity.
  - vm_compute; reflexivity.
  - vm_compute; reflexivity.
  - vm_compute; reflexivity.
Defined.

(** C1 as stated fails for a ringing state that has a snooze behind it: in
    the second ring of the day the first mute makes the count 2, not 1. *)
Lemma three_mutes_counterexample :
  reachable dec_int second_ring_example /\
  alarm_ringing second_ring_example = true /\
  snooze_count second_ring_example = 1 /\
  snooze_count (handle_mute_press 542 second_ring_example) = 2 /\
  snooze_count (handle_mute_press 542 second_ring_example) <> 1.
Proof.
  split; [exact second_ring_example_reachable|].
  vm_compute. repeat split; congruence.
Qed.



Lemma rollover_once_per_day_witness :
  rollover_detection 5 (initial_state 0)
    = set_prev_current_seconds (Some 5) (initial_state 0) /\
  rollover_detection 23401 ringing_example
    = set_prev_current_seconds (Some 23401) ringing_example /\
  (let s' := rollover_detection 0 midnight_example in
   (alarm_ringing s' = false /\ initial_fired_today s' = false /\
    snooze_count s' = 0 /\ snooze_target s' = None /\
    alarm_done_for_day s' = false) /\
   prev_current_seconds s' = Some 0 /\
   mute s' = mute midnight_example /\ radio s' = radio midnight_example) /\
  rollovers [0; 43199; 43200; 50000]%Q (initial_state 0)
    = day_of (initial_state 0) 50000 - day_of (initial_state 0) 0.
Proof.
  split; [|split; [|split]].
  - apply (rollover_once_per_day (initial_state 0) 5 0 []). reflexivity.
  - apply (rollover_once_per_day ringing_example 23401 0 [] ) with (prev := 23400).
    + reflexivity.
    + vm_compute; discriminate.
  - apply (rollover_once_per_day midnight_example 0 0 []) with (prev := 86340).
    + reflexivity.
    + reflexivity.
  - apply (rollover_once_per_day (initial_state 0) 0 0 [43199; 43200; 50000]%Q).
    + reflexivity.
    + vm_compute. repeat split; discriminate.
Defined.

(** C3 as stated fails on "forces audio mute": the alarm rings at 23:59, the
    iteration after midnight sees the clock wrap and clears the ring cycle,
    and [mute] is still 0 with the radio last told to unmute. *)
Lemma rollover_once_per_day_counterexample :
  let i := idle_inputs [] 60 false in
  let s' := main_loop_body dec_int i midnight_example in
  alarm_ringing midnight_example = true /\
  day_rolled dec_int i midnight_example = true /\
  ring_state s' = ring_state_zero /\
  mute s' = 0 /\ muted (radio s') = Some false /\
  mute (rollover_detection 0 midnight_example) <> 1 /\
  muted (radio (rollover_detection 0 midnight_example)) <> Some true.
Proof. vm_compute. repeat split; congruence. Qed.

Lemma snooze_count_at_most_two_witness :
  0 <= snooze_count dismissed_example <= 2.
Proof.
  apply (snooze_count_at_most_two dec_int dismissed_example).
  exact dismissed_example_reachable.
Defined.

Lemma ringing_excludes_dismissed_witness :
  ~ (alarm_ringing dismissed_example = true /\
     alarm_done_for_day dismissed_example = true).
Proof.
  apply (ringing_excludes_dismissed dec_int dismissed_example).
  exact dismissed_example_reachable.
Defined.

(** After the dismissal the alarm is set to the current minute, 06:48, and
    still does not ring. *)
Lemma dismissed_until_reset_witness :
  let ins := [idle_inputs [GET_set_alarm (query_hh_mm "6" "48")] 1084 false;
              idle_inputs [] 1085 false] in
  alarm_seconds (main_loop dec_int ins dismissed_example) / 60
    = get_current_seconds 1085 dismissed_example / 60 /\
  alarm_ringing (main_loop dec_int ins dismissed_example) = false /\
  alarm_done_for_day (main_loop dec_int ins dismissed_example) = true /\
  alarm_done_for_day
    (main_loop_body dec_int (idle_inputs [] 1084 true) dismissed_example) = false.
Proof.
  cbv zeta.
  destruct (dismissed_until_reset dec_int dismissed_example
              [idle_inputs [GET_set_alarm (query_hh_mm "6" "48")] 1084 false;
               idle_inputs [] 1085 false]
              dismissed_example_reachable eq_refl) as [H1 H2].
  split; [vm_compute; reflexivity|].
  split; [apply H1 | split; [apply H1 | apply H2]].
  - vm_compute. repeat split.
  - vm_compute. repeat split.
  - left. reflexivity.
Defined.



(** The snoozed alarm is set to 06:31, the minute about to start, and the
    iteration at 06:31:01 does not ring; a dismissed alarm set to the
    current minute stays silent. *)
Lemma set_alarm_frame_witness :
  (let ins := [idle_inputs [] 61 false] in
   let s' := set_alarm 6 31 0 snoozed_example in
   alarm_seconds s' / 60 = get_current_seconds 61 s' / 60 /\
   ring_state (main_loop dec_int ins s')
     = ring_state (main_loop dec_int ins snoozed_example) /\
   initial_fired_today (main_loop dec_int ins s') = true) /\
  (let ins := [idle_inputs [] 1084 false] in
   alarm_ringing (main_loop dec_int ins (set_alarm 6 48 0 dismissed_example))
     = false).
Proof.
  split; cbv zeta.
  - split; [vm_compute; reflexivity|].
    destruct (set_alarm_frame dec_int snoozed_example 6 31 0
                [idle_inputs [] 61 false]) as [_ H].
    destruct H as (H1 & H2 & _).
    + vm_compute; reflexivity.
    + vm_compute. repeat split.
    + split; [exact H1 | exact H2].
  - destruct (set_alarm_frame dec_int dismissed_example 6 48 0
                [idle_inputs [] 1084 false]) as [_ H].
    destruct H as (_ & _ & H3).
    + vm_compute; reflexivity.
    + vm_compute. repeat split.
    + apply H3; vm_compute; reflexivity.
Defined.

(** ** Further properties of the program *)

Ltac mod_bounds :=
  repeat match goal with
    | |- context [?a mod 86400] =>
        let H := fresh "Hmod" in
        assert (H := Z.mod_pos_bound a 86400 eq_refl);
        generalize dependent (a mod 86400); intros
    | |- context [?a mod 24] =>
        let H := fresh "Hmod" in
        assert (H := Z.mod_pos_bound a 24 eq_refl);
        generalize dependent (a mod 24); intros
    | |- context [?a mod 60] =>
        let H := fresh "Hmod" in
        assert (H := Z.mod_pos_bound a 60 eq_refl);
        generalize dependent (a mod 60); intros
    end.

Section Reachable.

Variable py_int : string -> option Z.

(** Every reachable state is built from the initial one by the functions
    that assign to the globals. *)
Lemma reachable_ops_ind (P : state -> Prop) :
  (forall t0, P (initial_state t0)) ->
  (forall now s, P s -> P (handle_mute_press now s)) ->
  (forall s, P s -> P (step_station 1 s)) ->
  (forall s, P s -> P (step_station (-1) s)) ->
  (forall now now' s, P s -> P (increment_hour now now' s)) ->
  (forall now now' s, P s -> P (increment_minute now now' s)) ->
  (forall s, P s -> P (increment_alarm_hour s)) ->
  (forall s, P s -> P (increment_alarm_minute s)) ->
  (forall hh mm ss now s, P s -> P (set_clock hh mm ss now s)) ->
  (forall hh mm ss s, P s -> P (set_alarm hh mm ss s)) ->
  (forall cur s, P s -> P (rollover_detection cur s)) ->
  (forall s, P s -> P (alarm_disable_reset s)) ->
  (forall en cur s, P s -> P (alarm_snooze_logic en cur s)) ->
  forall s, reachable py_int s -> P s.
Proof.
  intros Hinit Hmute Hup Hdown Hhour Hmin Hah Ham Hclock Halarm Hroll Hoff Hlogic.
  induction 1 as [t0 | r s _ IH | cur s _ IH | en s _ IH | i s _ IH | en cur s _ IH];
    auto.
  - destruct r; cbn [serve snd route_status]; auto.
    + unfold route_set_clock. split_ifs; cbn [snd]; auto.
    + unfold route_set_alarm. split_ifs; cbn [snd]; auto.
  - unfold arming_override. destruct (negb en); auto.
  - unfold hardware_buttons.
    destruct (negb (but_mute i)), (negb (stn_up i)), (negb (stn_down i)),
      (negb (sw_alarm i)), (negb (but_hours i)), (negb (but_mins i)); auto 10.
Qed.

Ltac state_cases s :=
  unfold_ops; unfold rollover_detection, alarm_snooze_logic, MAX_SNOOZES,
    SNOOZE_SECONDS, py_bool in *;
  destruct s; cbn in *; split_ifs; cbn in *; bool_hyps.

Lemma reachable_phase (s : state) : reachable py_int s -> phase_inv s.
Proof.
  apply reachable_ops_ind; clear s; unfold phase_inv; intros;
    try (state_cases s; intuition (try congruence; try lia); fail).
  cbn. left. repeat split.
Qed.

Lemma reachable_audio (s : state) : reachable py_int s -> audio_inv s.
Proof.
  apply reachable_ops_ind; clear s; unfold audio_inv; intros;
    try (state_cases s; intuition (subst; cbn in *; try congruence; try lia; auto); fail).
  cbn. intuition congruence.
Qed.

Lemma reachable_range (s : state) : reachable py_int s -> range_inv s.
Proof.
  apply reachable_ops_ind; clear s; unfold range_inv.
  1: { intros t0.
       unfold initial_state, SET_HOUR, SET_MINUTE, SET_SECOND, ALARM_HOUR,
         ALARM_MINUTE, ALARM_SECOND; cbn.
       repeat split; try lia; discriminate. }
  all: intros; match goal with H : _ /\ _ |- _ =>
                 destruct H as (Hb & Ha & Ht & Hs & Hf) end.
  all: state_cases s; mod_bounds; repeat split; try lia; try discriminate;
    try match goal with
      | H : Some _ = Some _ |- _ => inversion H; subst; lia
      | H : _ = Some _ |- _ => apply Ht in H; lia
      end.
Qed.

(** X1: in every reachable state the daily alarm is in exactly one of four
    phases: not fired (nothing counted, pending or dismissed); fired and
    ringing (no ring pending); fired and snoozed (a ring pending, one or two
    snoozes counted); fired and dismissed (no ring pending, two snoozes
    counted). *)
Theorem reachable_in_one_phase :
  forall s : state, reachable py_int s -> phase_inv s.
Proof. exact reachable_phase. Qed.

(** X2: in every reachable state [mute] is 0 or 1, the last [radio.mute]
    call, if any, passed the truth value of [mute], and while the alarm
    rings the radio is unmuted. *)
Theorem reachable_audio_in_sync :
  forall s : state, reachable py_int s -> audio_inv s.
Proof. exact reachable_audio. Qed.

(** X3: in every reachable state the clock base, the alarm time and a
    pending snooze target are seconds of a day (0..86399), the station is
    between 88.0 and 108.0 MHz and is the frequency the radio object was made
    with; the derived time of day is in 0..86399 in any state. *)
Theorem reachable_in_range :
  forall s : state,
    reachable py_int s ->
    range_inv s /\ forall now : Q, 0 <= get_current_seconds now s < 86400.
Proof.
  intros s H. split; [exact (reachable_range s H)|].
  intros now. apply Z.mod_pos_bound. reflexivity.
Qed.

End Reachable.

(** *** Tuning *)

(** X4: on the FM band a step stays on the band, wraps from 108.0 up to 88.0
    and from 88.0 down to 108.0, and a step up followed by a step down (or
    down, then up) comes back to the station; the radio is retuned to the new
    station and told the current mute flag, which the step leaves alone. *)
Theorem step_station_band :
  forall s : state,
    880 <= station s <= 1080 ->
    (880 <= station (step_station 1 s) <= 1080 /\
     880 <= station (step_station (-1) s) <= 1080) /\
    (station s = 1080 -> station (step_station 1 s) = 880) /\
    (station s = 880 -> station (step_station (-1) s) = 1080) /\
    (station s < 1080 -> station (step_station 1 s) = station s + 1) /\
    (880 < station s -> station (step_station (-1) s) = station s - 1) /\
    station (step_station (-1) (step_station 1 s)) = station s /\
    station (step_station 1 (step_station (-1) s)) = station s /\
    (forall step : Z,
       freq (radio (step_station step s)) = station (step_station step s) /\
       muted (radio (step_station step s)) = Some (py_bool (mute s)) /\
       mute (step_station step s) = mute s /\
       ring_state (step_station step s) = ring_state s).
Proof.
  intros s H. unfold step_station, apply_station.
  destruct s; cbn in *.
  repeat split; intros; rewrite ?Z.gtb_ltb; split_ifs; cbn;
    rewrite ?Z.gtb_ltb; split_ifs; cbn; try lia; try reflexivity;
    repeat match goal with
      | H : context [if ?a <? ?b then _ else _] |- _ =>
          destruct (Z.ltb_spec a b)
      end; lia.
Qed.

Lemma step_station_band_witness :
  station (step_station 1 (set_station 1080 (initial_state 0))) = 880 /\
  station (step_station (-1) (step_station 1 (initial_state 0))) = 999.
Proof.
  split.
  - destruct (step_station_band (set_station 1080 (initial_state 0)))
      as (_ & H & _); [cbn; lia|].
    apply H. reflexivity.
  - destruct (step_station_band (initial_state 0))
      as (_ & _ & _ & _ & _ & H & _); [cbn; lia|].
    exact H.
Defined.

(** *** The alarm adjustment buttons *)

Lemma increment_alarm_hours_seconds (n : nat) :
  forall s : state,
    alarm_seconds (increment_alarm_hours n s)
    = (alarm_seconds s + Z.of_nat n * 3600) mod 86400
    \/ (n = O /\ alarm_seconds (increment_alarm_hours n s) = alarm_seconds s).
Proof.
  induction n as [|n IH]; intros s; [right; split; reflexivity|].
  left. cbn [increment_alarm_hours].
  destruct (IH (increment_alarm_hour s)) as [E | [-> E]]; rewrite E;
    unfold increment_alarm_hour; cbn [alarm_seconds set_alarm_seconds].
  - rewrite Zplus_mod_idemp_l. f_equal. lia.
  - reflexivity.
Qed.

Lemma increment_alarm_minutes_seconds (n : nat) :
  forall s : state,
    alarm_seconds (increment_alarm_minutes n s)
    = (alarm_seconds s + Z.of_nat n * 60) mod 86400
    \/ (n = O /\ alarm_seconds (increment_alarm_minutes n s) = alarm_seconds s).
Proof.
  induction n as [|n IH]; intros s; [right; split; reflexivity|].
  left. cbn [increment_alarm_minutes].
  destruct (IH (increment_alarm_minute s)) as [E | [-> E]]; rewrite E;
    unfold increment_alarm_minute; cbn [alarm_seconds set_alarm_seconds].
  - rewrite Zplus_mod_idemp_l. f_equal. lia.
  - reflexivity.
Qed.

Lemma increment_alarm_hours_frame (n : nat) :
  forall s : state,
    increment_alarm_hours n s
    = set_alarm_seconds (alarm_seconds (increment_alarm_hours n s)) s.
Proof.
  induction n as [|n IH]; intros s; cbn [increment_alarm_hours].
  - destruct s; reflexivity.
  - rewrite IH at 1. reflexivity.
Qed.

Lemma increment_alarm_minutes_frame (n : nat) :
  forall s : state,
    increment_alarm_minutes n s
    = set_alarm_seconds (alarm_seconds (increment_alarm_minutes n s)) s.
Proof.
  induction n as [|n IH]; intros s; cbn [increment_alarm_minutes].
  - destruct s; reflexivity.
  - rewrite IH at 1. reflexivity.
Qed.

(** X5: pressing the alarm hour (minute) button n times, n at least 1, sets
    the alarm to the old time plus n*3600 (n*60) modulo 86400 and changes
    nothing else; sixty minute presses are one hour press, and for an alarm
    time in 0..86399 twenty-four hour presses, or 1440 minute presses, bring
    the state back. *)
Theorem alarm_buttons_compose :
  forall (s : state) (n : nat),
    (0 < n)%nat ->
    (increment_alarm_hours n s
       = set_alarm_seconds ((alarm_seconds s + Z.of_nat n * 3600) mod 86400) s /\
     increment_alarm_minutes n s
       = set_alarm_seconds ((alarm_seconds s + Z.of_nat n * 60) mod 86400) s) /\
    increment_alarm_minutes 60 s = increment_alarm_hour s /\
    (0 <= alarm_seconds s < 86400 ->
       increment_alarm_hours 24 s = s /\ increment_alarm_minutes 1440 s = s).
Proof.
  intros s n Hn.
  assert (Hh : forall k, (0 < k)%nat ->
            increment_alarm_hours k s
            = set_alarm_seconds ((alarm_seconds s + Z.of_nat k * 3600) mod 86400) s).
  { intros k Hk. rewrite increment_alarm_hours_frame.
    destruct (increment_alarm_hours_seconds k s) as [-> | [-> _]];
      [reflexivity | lia]. }
  assert (Hm : forall k, (0 < k)%nat ->
            increment_alarm_minutes k s
            = set_alarm_seconds ((alarm_seconds s + Z.of_nat k * 60) mod 86400) s).
  { intros k Hk. rewrite increment_alarm_minutes_frame.
    destruct (increment_alarm_minutes_seconds k s) as [-> | [-> _]];
      [reflexivity | lia]. }
  split; [split; auto|]. split.
  - rewrite Hm by lia. reflexivity.
  - intros Hr. rewrite Hh, Hm by lia.
    change (Z.of_nat 24 * 3600) with (1 * 86400).
    change (Z.of_nat 1440 * 60) with (1 * 86400).
    rewrite Z_mod_plus_full, Z.mod_small by lia.
    destruct s; split; reflexivity.
Qed.

Lemma alarm_buttons_compose_witness :
  increment_alarm_hours 3 (initial_state 0)
    = set_alarm_seconds 34200 (initial_state 0) /\
  increment_alarm_hours 24 (initial_state 0) = initial_state 0.
Proof.
  destruct (alarm_buttons_compose (initial_state 0) 3 ltac:(lia))
    as ((H1 & _) & _ & H3).
  split; [exact H1 | apply H3].
  unfold initial_state, ALARM_HOUR, ALARM_MINUTE, ALARM_SECOND; cbn; lia.
Defined.

(** *** The running clock *)





(** *** Iterations of the main loop *)

Section Iterations.

Variable py_int : string -> option Z.

Lemma main_loop_body_idle (t : Q) (pin : bool) (s : state) :
  main_loop_body py_int (idle_inputs [] t pin) s
  = alarm_snooze_logic (negb pin) (get_current_seconds t s)
      (arming_override (negb pin)
         (rollover_detection (get_current_seconds t s) s)).
Proof. reflexivity. Qed.

(** The initial alarm: not fired, not dismissed, armed, at the alarm's
    minute. *)
Lemma initial_alarm_fires (cur : Z) (s : state) :
  initial_fired_today s = false -> alarm_done_for_day s = false ->
  cur / 60 = alarm_seconds s / 60 ->
  let s' := alarm_snooze_logic true cur s in
  alarm_ringing s' = true /\ initial_fired_today s' = true /\
  snooze_target s' = None /\ snooze_count s' = snooze_count s /\
  alarm_done_for_day s' = false /\
  mute s' = 0 /\ muted (radio s') = Some false.
Proof.
  intros Hf Hd Hm. unfold alarm_snooze_logic.
  rewrite Hd, Hf, Hm, Z.eqb_refl. cbn. repeat split; assumption.
Qed.

Lemma rollover_detection_idle (cur : Z) (s : state) :
  initial_fired_today s = false -> alarm_done_for_day s = false ->
  initial_fired_today (rollover_detection cur s) = false /\
  alarm_done_for_day (rollover_detection cur s) = false /\
  alarm_seconds (rollover_detection cur s) = alarm_seconds s.
Proof.
  intros Hf Hd. unfold rollover_detection.
  destruct (prev_current_seconds s) as [prev|];
    [destruct (cur <? prev)|]; cbn; auto.
Qed.

Lemma idle_iteration_fires (t : Q) (s : state) :
  initial_fired_today s = false -> alarm_done_for_day s = false ->
  get_current_seconds t s / 60 = alarm_seconds s / 60 ->
  let s' := main_loop_body py_int (idle_inputs [] t false) s in
  alarm_ringing s' = true /\ initial_fired_today s' = true /\
  snooze_target s' = None /\ alarm_done_for_day s' = false /\
  mute s' = 0 /\ muted (radio s') = Some false.
Proof.
  intros Hf Hd Hm s'. subst s'. rewrite main_loop_body_idle.
  cbn [negb arming_override].
  destruct (rollover_detection_idle (get_current_seconds t s) s Hf Hd)
    as (Hf' & Hd' & Ha').
  rewrite <- Ha' in Hm.
  destruct (initial_alarm_fires _ _ Hf' Hd' Hm) as (A & B & C & _ & D & E & F).
  repeat split; assumption.
Qed.

(** X7: an iteration with no request and no button pressed that finds the
    alarm armed, not yet fired today and not dismissed, at a time in the
    alarm's minute, starts the ring: the alarm rings, is marked fired, no
    snooze is pending, and the radio is unmuted. *)
Theorem alarm_fires_at_its_minute :
  forall (s : state) (t : Q),
    initial_fired_today s = false -> alarm_done_for_day s = false ->
    get_current_seconds t s / 60 = alarm_seconds s / 60 ->
    let s' := main_loop_body py_int (idle_inputs [] t false) s in
    alarm_ringing s' = true /\ initial_fired_today s' = true /\
    snooze_target s' = None /\ alarm_done_for_day s' = false /\
    mute s' = 0 /\ muted (radio s') = Some false.
Proof. intros s t. apply idle_iteration_fires. Qed.

Lemma ring_state_serve_other (r : Request) (s : state) :
  is_mute_toggle r = false ->
  ring_state (snd (serve py_int r s)) = ring_state s /\
  mute (snd (serve py_int r s)) = mute s.
Proof.
  intros H. destruct r; try discriminate H; cbn [serve snd route_status];
    try (split; reflexivity).
  - unfold route_set_clock. split_ifs; split; reflexivity.
  - unfold route_set_alarm. split_ifs; split; reflexivity.
Qed.

Lemma ring_state_server_poll_other (rs : list Request) :
  forall s : state,
    forallb (fun r => negb (is_mute_toggle r)) rs = true ->
    ring_state (server_poll py_int rs s) = ring_state s /\
    mute (server_poll py_int rs s) = mute s.
Proof.
  induction rs as [|r rs IH]; intros s H; cbn [server_poll forallb] in *;
    [split; reflexivity|].
  apply andb_prop in H. destruct H as [Hr Hrs]. apply negb_true_iff in Hr.
  destruct (ring_state_serve_other r s Hr) as [E1 E2].
  destruct (IH (snd (serve py_int r s)) Hrs) as [E3 E4].
  split; congruence.
Qed.

Lemma ring_state_hardware_buttons_other (i : inputs) (s : state) :
  but_mute i = true ->
  ring_state (hardware_buttons i s) = ring_state s /\
  mute (hardware_buttons i s) = mute s.
Proof.
  intros H. unfold hardware_buttons. rewrite H. cbn [negb].
  destruct (negb (stn_up i)), (negb (stn_down i)),
    (negb (sw_alarm i)), (negb (but_hours i)), (negb (but_mins i));
    split; reflexivity.
Qed.

(** X8: without a mute event the ring goes on: an armed iteration with no
    clock wrap, no mute request and the mute button released keeps a ringing
    alarm ringing, with the ring cycle and the mute flag unchanged. *)
Theorem ring_continues_until_muted :
  forall (s : state) (i : inputs),
    reachable py_int s -> alarm_ringing s = true ->
    sw_alarm_enable i = false -> day_rolled py_int i s = false ->
    forallb (fun r => negb (is_mute_toggle r)) (requests i) = true ->
    but_mute i = true ->
    let s' := main_loop_body py_int i s in
    alarm_ringing s' = true /\ ring_state s' = ring_state s /\ mute s' = 0.
Proof.
  intros s i Hreach Hring Hen Hroll Hreq Hbut s'.
  assert (Hmute : mute s = 0).
  { destruct (reachable_audio py_int s Hreach) as (_ & _ & H). apply H, Hring. }
  assert (Hph : initial_fired_today s = true /\ snooze_target s = None).
  { destruct (reachable_phase py_int s Hreach)
      as [H | [H | [H | H]]]; intuition congruence. }
  destruct Hph as [Hf Ht].
  assert (E : ring_state s' = ring_state s /\ mute s' = mute s).
  { subst s'. unfold main_loop_body, day_rolled in *.
    rewrite Hen. cbn [negb arming_override].
    destruct (ring_state_server_poll_other (requests i) s Hreq) as [E1 M1].
    set (s1 := server_poll py_int (requests i) s) in *.
    set (cur := get_current_seconds (now_cur i) s1) in *.
    assert (E2 := ring_state_rollover_detection cur s1 Hroll).
    assert (M2 : mute (rollover_detection cur s1) = mute s1).
    { unfold rollover_detection.
      destruct (prev_current_seconds s1) as [prev|];
        [destruct (cur <? prev)|]; reflexivity. }
    set (s2 := rollover_detection cur s1) in *.
    destruct (ring_state_hardware_buttons_other i s2 Hbut) as [E3 M3].
    set (s3 := hardware_buttons i s2) in *.
    assert (E13 : ring_state s3 = ring_state s) by congruence.
    destruct (ring_state_eq _ _ E13) as (_ & B & _ & D & _).
    rewrite ring_state_alarm_snooze_logic.
    - split; congruence.
    - right. right. split; congruence. }
  destruct E as [E M]. destruct (ring_state_eq _ _ E) as (A & _).
  repeat split; congruence.
Qed.

(** *** Mute during a ring *)

Lemma snooze_minute_differs (c d : Z) :
  0 <= c < 86400 -> 0 <= d <= 480 ->
  ((c + d + 540) mod 86400) / 60 <> c / 60.
Proof.
  intros Hc Hd.
  assert (Ec := Z.div_mod c 60 ltac:(discriminate)).
  assert (Bc := Z.mod_pos_bound c 60 eq_refl).
  set (tg := (c + d + 540) mod 86400).
  assert (Et := Z.div_mod tg 60 ltac:(discriminate)).
  assert (Bt := Z.mod_pos_bound tg 60 eq_refl).
  assert (Htg : tg = c + d + 540 \/ tg = c + d + 540 - 86400).
  { subst tg. destruct (Z_lt_ge_dec (c + d + 540) 86400).
    - left. apply Z.mod_small. lia.
    - right. replace (c + d + 540) with (c + d + 540 - 86400 + 1 * 86400) at 1 by lia.
      rewrite Z_mod_plus_full. apply Z.mod_small. lia. }
  intros E. rewrite E in Et. lia.
Qed.

Lemma snooze_target_later (b ec em : Z) :
  ec <= em <= ec + 480 ->
  (((b + em) mod 86400 + 540) mod 86400) / 60 <> ((b + ec) mod 86400) / 60.
Proof.
  intros H.
  assert (Bc := Z.mod_pos_bound (b + ec) 86400 eq_refl).
  replace (((b + em) mod 86400 + 540) mod 86400)
    with (((b + ec) mod 86400 + (em - ec) + 540) mod 86400).
  - apply snooze_minute_differs; lia.
  - rewrite Zplus_mod_idemp_l.
    rewrite <- Z.add_assoc, Zplus_mod_idemp_l. f_equal. lia.
Qed.

Lemma alarm_snooze_logic_waits (en : bool) (cur target : Z) (s : state) :
  initial_fired_today s = true -> snooze_target s = Some target ->
  cur / 60 <> target / 60 ->
  alarm_snooze_logic en cur s = s.
Proof.
  intros Hf Ht Hm. unfold alarm_snooze_logic. rewrite Hf. cbn [negb andb].
  rewrite Ht. apply Z.eqb_neq in Hm. rewrite Hm.
  destruct (en && negb (alarm_done_for_day s)); reflexivity.
Qed.

Lemma rollover_detection_same_day (cur : Z) (s : state) :
  match prev_current_seconds s with
  | Some prev => cur <? prev
  | None => false
  end = false ->
  rollover_detection cur s = set_prev_current_seconds (Some cur) s.
Proof.
  unfold rollover_detection. destruct (prev_current_seconds s) as [prev|].
  - intros ->. reflexivity.
  - reflexivity.
Qed.

Lemma hardware_buttons_mute (i : inputs) (s : state) :
  but_mute i = false ->
  let h := handle_mute_press (now_mute i) s in
  ring_state (hardware_buttons i s) = ring_state h /\
  mute (hardware_buttons i s) = mute h /\
  (muted (radio (hardware_buttons i s)) = muted (radio h) \/
   muted (radio (hardware_buttons i s)) = Some (py_bool (mute h))).
Proof.
  intros H h. subst h. unfold hardware_buttons. rewrite H. cbn [negb].
  destruct (negb (stn_up i)), (negb (stn_down i)),
    (negb (sw_alarm i)), (negb (but_hours i)), (negb (but_mins i));
    repeat split; first [left; reflexivity | right; reflexivity].
Qed.

(** X9: the mute button pressed during a ring silences the alarm in that
    very iteration: for an armed iteration with no request and no clock wrap,
    in which the button's clock read comes at most eight minutes after the
    loop's, the alarm is not ringing at the end and the radio is muted; with
    a snooze left the count grows by one and the ring is pending 540 seconds
    after the press, with both snoozes used the alarm is dismissed. *)
Theorem mute_button_silences_ring :
  forall (s : state) (i : inputs),
    reachable py_int s -> alarm_ringing s = true ->
    sw_alarm_enable i = false -> day_rolled py_int i s = false ->
    requests i = [] -> but_mute i = false ->
    elapsed s (now_cur i) <= elapsed s (now_mute i)
      <= elapsed s (now_cur i) + 480 ->
    let s' := main_loop_body py_int i s in
    alarm_ringing s' = false /\ mute s' = 1 /\ muted (radio s') = Some true /\
    (snooze_count s < 2 ->
       snooze_count s' = snooze_count s + 1 /\
       snooze_target s'
         = Some ((get_current_seconds (now_mute i) s + 540) mod 86400) /\
       alarm_done_for_day s' = false) /\
    (snooze_count s = 2 ->
       alarm_done_for_day s' = true /\ snooze_target s' = None).
Proof.
  intros s i Hreach Hring Hen Hroll Hreq Hbut Hlate s'.
  assert (Hph : initial_fired_today s = true /\ alarm_done_for_day s = false /\
                0 <= snooze_count s <= 2).
  { destruct (reachable_phase py_int s Hreach)
      as [H | [H | [H | H]]]; intuition congruence. }
  destruct Hph as (Hf & Hd & Hc).
  subst s'. unfold main_loop_body, day_rolled in *. rewrite Hreq in *.
  cbn [server_poll] in *. rewrite Hen. cbn [negb arming_override].
  set (cur := get_current_seconds (now_cur i) s) in *.
  rewrite (rollover_detection_same_day cur s Hroll).
  set (s2 := set_prev_current_seconds (Some cur) s).
  destruct (hardware_buttons_mute i s2 Hbut) as (E & M & R).
  set (h := handle_mute_press (now_mute i) s2) in *.
  set (s3 := hardware_buttons i s2) in *.
  destruct (ring_state_eq _ _ E) as (A & B & C & D & F).
  assert (Hfh : initial_fired_today h = true).
  { subst h. unfold handle_mute_press. split_ifs; exact Hf. }
  destruct (Z_lt_ge_dec (snooze_count s) MAX_SNOOZES) as [Hlt | Hge].
  - destruct (handle_mute_press_snooze (now_mute i) s2 Hring Hlt)
      as (C1 & T1 & R1 & D1 & M1 & A1).
    fold h in C1, T1, R1, D1, M1, A1.
    change (get_current_seconds (now_mute i) s2)
      with (get_current_seconds (now_mute i) s) in T1.
    change (snooze_count s2) with (snooze_count s) in C1.
    change (alarm_done_for_day s2) with (alarm_done_for_day s) in D1.
    rewrite (alarm_snooze_logic_waits true cur
               ((get_current_seconds (now_mute i) s + 540) mod 86400) s3).
    + repeat split; try congruence.
      * destruct R as [R | R]; rewrite R; [exact A1 | rewrite M1; reflexivity].
      * unfold MAX_SNOOZES in *. lia.
      * unfold MAX_SNOOZES in *. lia.
    + congruence.
    + congruence.
    + subst cur. unfold get_current_seconds. fold (elapsed s (now_cur i)).
      fold (elapsed s (now_mute i)).
      intros Heq. symmetry in Heq. revert Heq.
      apply snooze_target_later. exact Hlate.
  - assert (Hge' : MAX_SNOOZES <= snooze_count s2)
      by (change (snooze_count s2) with (snooze_count s); lia).
    destruct (handle_mute_press_dismiss (now_mute i) s2 Hring Hge')
      as (C1 & T1 & R1 & D1 & M1 & A1).
    fold h in C1, T1, R1, D1, M1, A1.
    rewrite ring_state_alarm_snooze_logic by (right; left; congruence).
    repeat split; try congruence.
    + destruct R as [R | R]; rewrite R; [exact A1 | rewrite M1; reflexivity].
    + unfold MAX_SNOOZES in *. lia.
    + unfold MAX_SNOOZES in *. lia.
    + unfold MAX_SNOOZES in *. lia.
Qed.

(** X10: a snooze sets the pending ring exactly 540 seconds ahead of the
    current time on the 24-hour dial: the target is a second of the day,
    differs from the current time and lies in another minute. *)
Theorem snooze_target_nine_minutes_ahead :
  forall (s : state) (now : Q),
    alarm_ringing s = true -> snooze_count s < 2 ->
    exists target : Z,
      snooze_target (handle_mute_press now s) = Some target /\
      0 <= target < 86400 /\
      (target - get_current_seconds now s) mod 86400 = 540 /\
      target / 60 <> get_current_seconds now s / 60.
Proof.
  intros s now Hr Hc.
  destruct (handle_mute_press_snooze now s Hr Hc) as (_ & T & _).
  exists ((get_current_seconds now s + 540) mod 86400).
  assert (Bc : 0 <= get_current_seconds now s < 86400)
    by (apply Z.mod_pos_bound; reflexivity).
  repeat split; try exact T; try (apply Z.mod_pos_bound; reflexivity).
  - rewrite Zminus_mod_idemp_l.
    replace (get_current_seconds now s + 540 - get_current_seconds now s)
      with 540 by lia.
    reflexivity.
  - replace (get_current_seconds now s + 540)
      with (get_current_seconds now s + 0 + 540) by lia.
    apply snooze_minute_differs; lia.
Qed.

(** *** Requests *)


(** *** The plain mute toggle *)

(** X12: while the alarm is not ringing a mute press only flips the mute
    flag between 0 and 1 and tells the radio the new value; the ring cycle is
    untouched, and a second press restores the flag (the whole state, when
    the radio had been told the flag before). *)
Theorem mute_toggle_round_trip :
  forall (s : state) (now now' : Q),
    alarm_ringing s = false -> mute s = 0 \/ mute s = 1 ->
    let s1 := handle_mute_press now s in
    let s2 := handle_mute_press now' s1 in
    mute s1 = 1 - mute s /\
    muted (radio s1) = Some (py_bool (mute s1)) /\
    ring_state s1 = ring_state s /\
    mute s2 = mute s /\
    (muted (radio s) = Some (py_bool (mute s)) -> s2 = s).
Proof.
  intros s now now' Hr Hm s1 s2. subst s1 s2. unfold handle_mute_press.
  rewrite Hr. cbn [alarm_ringing set_mute set_radio]. rewrite Hr.
  destruct s as [st mu [fr md] bs als sm ar ift sc stg adf pcs]; cbn in *.
  destruct Hm as [-> | ->]; cbn; repeat split; intros ->; reflexivity.
Qed.

(** *** Disarming and setting the clock *)

Lemma disarmed_ring_state (i : inputs) (s : state) :
  sw_alarm_enable i = true ->
  ring_state (main_loop_body py_int i s) = ring_state_zero.
Proof.
  intros Hen. unfold main_loop_body. rewrite Hen. cbn [negb].
  rewrite ring_state_alarm_snooze_logic by (left; reflexivity).
  set (s2 := rollover_detection _ _).
  exact (ring_state_hardware_buttons i (arming_override false s2) eq_refl).
Qed.

(** X13: disarming and arming again lets the alarm fire again the same day:
    whatever the state, after an iteration that finds the enable switch open,
    an armed iteration at a time in the alarm's minute rings. *)
Theorem rearming_lets_alarm_fire_again :
  forall (s : state) (i : inputs) (t : Q),
    sw_alarm_enable i = true ->
    let s1 := main_loop_body py_int i s in
    get_current_seconds t s1 / 60 = alarm_seconds s1 / 60 ->
    let s2 := main_loop py_int [i; idle_inputs [] t false] s in
    alarm_ringing s2 = true /\ initial_fired_today s2 = true /\
    mute s2 = 0 /\ muted (radio s2) = Some false.
Proof.
  intros s i t Hen s1 Hm s2. subst s2. cbn [main_loop]. fold s1.
  assert (E := disarmed_ring_state i s Hen). fold s1 in E.
  unfold ring_state, ring_state_zero in E.
  assert (Hf : initial_fired_today s1 = false) by congruence.
  assert (Hd : alarm_done_for_day s1 = false) by congruence.
  destruct (idle_iteration_fires t s1 Hf Hd Hm) as (A & B & _ & _ & C & D).
  repeat split; assumption.
Qed.

Lemma alarm_snooze_logic_fresh (en : bool) (cur : Z) (s : state) :
  ring_state s = ring_state_zero ->
  let s' := alarm_snooze_logic en cur s in
  snooze_count s' = 0 /\ snooze_target s' = None /\
  alarm_done_for_day s' = false.
Proof.
  unfold ring_state, ring_state_zero, alarm_snooze_logic. intros H.
  injection H as Hr Hf Hc Ht Hd. rewrite Hd, Hf. cbn [negb andb].
  rewrite andb_true_r.
  destruct en; cbn [andb]; [|auto].
  destruct (cur / 60 =? alarm_seconds s / 60); cbn; [auto|].
  rewrite Ht. auto.
Qed.

(** X14: setting the clock back counts as a new day.  When a [/set_clock]
    request (with [hh] and [mm] only) sets a time of day earlier than the one
    the previous iteration saw, the iteration that serves it clears the
    snooze count, the pending snooze and the dismissal. *)
Theorem clock_set_back_resets_day :
  forall (s : state) (q : gmap string string) (now : Q) (pin : bool)
         (hh mm : string) (h m prev : Z),
    q !! "hh"%string = Some hh -> q !! "mm"%string = Some mm ->
    q !! "ss"%string = None ->
    py_int hh = Some h -> py_int mm = Some m ->
    prev_current_seconds s = Some prev ->
    (h mod 24) * 3600 + (m mod 60) * 60 < prev ->
    let s' := main_loop_body py_int (idle_inputs [GET_set_clock q now] now pin) s in
    base_seconds s' = (h mod 24) * 3600 + (m mod 60) * 60 /\
    prev_current_seconds s' = Some ((h mod 24) * 3600 + (m mod 60) * 60) /\
    snooze_count s' = 0 /\ snooze_target s' = None /\
    alarm_done_for_day s' = false.
Proof.
  intros s q now pin hh mm h m prev Hh Hm Hs Eh Em Hp Hlt s'.
  subst s'. unfold main_loop_body.
  cbn [requests idle_inputs server_poll serve snd now_cur sw_alarm_enable].
  unfold route_set_clock. rewrite Hh, Hm, Hs, Eh, Em. cbn [from_option snd].
  set (s1 := set_clock h m 0 now s).
  assert (Hcur : get_current_seconds now s1 = (h mod 24) * 3600 + (m mod 60) * 60).
  { subst s1. unfold get_current_seconds, set_clock; cbn.
    rewrite py_int_of_float_same, Z.add_0_r. change (0 mod 60) with 0.
    assert (Bh := Z.mod_pos_bound h 24 eq_refl).
    assert (Bm := Z.mod_pos_bound m 60 eq_refl).
    rewrite Z.add_0_r. apply Z.mod_small. lia. }
  rewrite Hcur. set (cur := (h mod 24) * 3600 + (m mod 60) * 60) in *.
  assert (E2 : rollover_detection cur s1
               = set_prev_current_seconds (Some cur) (reset_daily_alarm_state s1)).
  { unfold rollover_detection.
    change (prev_current_seconds s1) with (prev_current_seconds s). rewrite Hp.
    destruct (Z.ltb_spec cur prev); [reflexivity | lia]. }
  rewrite E2.
  set (s2 := set_prev_current_seconds _ _).
  assert (Z2 : ring_state (arming_override (negb pin) s2) = ring_state_zero)
    by (destruct pin; reflexivity).
  change (hardware_buttons (idle_inputs [GET_set_clock q now] now pin)
            (arming_override (negb pin) s2))
    with (arming_override (negb pin) s2).
  destruct (alarm_snooze_logic_fresh (negb pin) cur _ Z2) as (A & B & C).
  repeat split; try assumption.
  - destruct pin; cbn; unfold alarm_snooze_logic; cbn; split_ifs; cbn;
      change (0 mod 60) with 0; lia.
  - destruct pin; cbn; unfold alarm_snooze_logic; cbn; split_ifs; reflexivity.
Qed.

End Iterations.

(** *** The display *)

Lemma string_length_app (a b : string) :
  String.length (a ++ b) = (String.length a + String.length b)%nat.
Proof.
  induction a as [|c a IH]; [reflexivity|].
  change (S (String.length (a ++ b)) = S (String.length a + String.length b)).
  f_equal. exact IH.
Qed.

Lemma py_format_02d_length (n : Z) :
  0 <= n < 100 -> String.length (py_format_02d n) = 2%nat.
Proof.
  intros H.
  assert (All : forallb
            (fun k => Nat.eqb (String.length (py_format_02d (Z.of_nat k))) 2)
            (seq 0 100) = true) by (vm_compute; reflexivity).
  rewrite forallb_forall in All.
  specialize (All (Z.to_nat n)). rewrite Z2Nat.id in All by lia.
  apply Nat.eqb_eq, All, in_seq. lia.
Qed.

(** X15: in clock mode the display shows a 12-hour time: the text is the
    two-digit hour, between 1 and 12, followed by the two-digit minute, four
    characters in all, and hour, minute and the second of the minute give
    back the time of day within its half day; the colon is steady from noon
    on and, before noon, lit on even seconds.  In alarm mode it shows the
    alarm's 24-hour hour and minute with the colon lit. *)
Theorem update_clock_shows_time :
  forall (s : state) (now : Q),
    (let current := get_current_seconds now s in
     exists hours minutes : Z,
       text (update_clock true now s)
         = (py_format_02d hours ++ py_format_02d minutes)%string /\
       1 <= hours <= 12 /\ 0 <= minutes <= 59 /\
       (hours mod 12) * 3600 + minutes * 60 + current mod 60
         = current mod 43200 /\
       String.length (text (update_clock true now s)) = 4%nat /\
       colon (update_clock true now s)
         = (43200 <=? current) || (current mod 2 =? 0)) /\
    (0 <= alarm_seconds s < 86400 ->
     exists hours minutes : Z,
       text (update_clock false now s)
         = (py_format_02d hours ++ py_format_02d minutes)%string /\
       0 <= hours <= 23 /\ 0 <= minutes <= 59 /\
       hours * 3600 + minutes * 60 + alarm_seconds s mod 60 = alarm_seconds s /\
       String.length (text (update_clock false now s)) = 4%nat /\
       colon (update_clock false now s) = true).
Proof.
  intros s now. split.
  - cbv zeta. unfold update_clock, USE_12_HOUR. cbn [negb andb text colon].
    set (current := get_current_seconds now s).
    assert (Bc : 0 <= current < 86400)
      by (apply Z.mod_pos_bound; reflexivity).
    assert (E1 := Z.div_mod current 3600 ltac:(discriminate)).
    assert (B1 := Z.mod_pos_bound current 3600 eq_refl).
    assert (E2 := Z.div_mod (current mod 3600) 60 ltac:(discriminate)).
    assert (B2 := Z.mod_pos_bound (current mod 3600) 60 eq_refl).
    assert (E3 := Z.div_mod (current / 3600) 12 ltac:(discriminate)).
    assert (B3 := Z.mod_pos_bound (current / 3600) 12 eq_refl).
    assert (E4 := Z.div_mod current 43200 ltac:(discriminate)).
    assert (B4 := Z.mod_pos_bound current 43200 eq_refl).
    assert (E5 := Z.div_mod current 60 ltac:(discriminate)).
    assert (B5 := Z.mod_pos_bound current 60 eq_refl).
    assert (E6 := Z.div_mod current 2 ltac:(discriminate)).
    assert (B6 := Z.mod_pos_bound current 2 eq_refl).
    assert (E7 := Z.div_mod (current mod 60) 2 ltac:(discriminate)).
    assert (B7 := Z.mod_pos_bound (current mod 60) 2 eq_refl).
    set (h24 := current / 3600) in *.
    set (hours := if h24 mod 12 =? 0 then 12 else h24 mod 12).
    set (minutes := current mod 3600 / 60) in *.
    assert (Hh : 1 <= hours <= 12)
      by (subst hours; destruct (Z.eqb_spec (h24 mod 12) 0); lia).
    assert (Hmn : 0 <= minutes <= 59) by lia.
    assert (Hh12 : hours mod 12 = h24 mod 12).
    { subst hours. destruct (Z.eqb_spec (h24 mod 12) 0) as [-> | _];
        [reflexivity | apply Z.mod_small; lia]. }
    exists hours, minutes.
    split; [reflexivity|]. split; [exact Hh|]. split; [exact Hmn|].
    split; [rewrite Hh12; lia|]. split.
    + rewrite string_length_app, !py_format_02d_length by lia. reflexivity.
    + assert (Hpar : current mod 60 mod 2 = current mod 2) by lia.
      rewrite Hpar.
      destruct (Z.leb_spec 12 h24), (Z.leb_spec 43200 current);
        try reflexivity; lia.
  - intros Ha. unfold update_clock. cbn [negb text colon].
    set (a := alarm_seconds s) in *.
    assert (E1 := Z.div_mod a 3600 ltac:(discriminate)).
    assert (B1 := Z.mod_pos_bound a 3600 eq_refl).
    assert (E2 := Z.div_mod (a mod 3600) 60 ltac:(discriminate)).
    assert (B2 := Z.mod_pos_bound (a mod 3600) 60 eq_refl).
    assert (E5 := Z.div_mod a 60 ltac:(discriminate)).
    assert (B5 := Z.mod_pos_bound a 60 eq_refl).
    exists (a / 3600), (a mod 3600 / 60).
    split; [reflexivity|]. split; [lia|]. split; [lia|]. split; [lia|].
    split; [|reflexivity].
    rewrite string_length_app, !py_format_02d_length by lia. reflexivity.
Qed.

(** ** The further properties on the example runs *)

Lemma reachable_in_one_phase_witness : phase_inv dismissed_example.
Proof.
  apply (reachable_in_one_phase dec_int dismissed_example).
  exact dismissed_example_reachable.
Defined.

Lemma reachable_audio_in_sync_witness : audio_inv second_ring_example.
Proof.
  apply (reachable_audio_in_sync dec_int second_ring_example).
  exact second_ring_example_reachable.
Defined.

Lemma reachable_in_range_witness :
  range_inv snoozed_example /\
  forall now : Q, 0 <= get_current_seconds now snoozed_example < 86400.
Proof.
  apply (reachable_in_range dec_int snoozed_example).
  exact snoozed_example_reachable.
Defined.

(** The clock is set to 06:29:59 with the alarm at 06:30; one second later
    the alarm rings. *)
Lemma alarm_fires_at_its_minute_witness :
  let s := set_clock 6 29 59 0 (initial_state 0) in
  let s' := main_loop_body dec_int (idle_inputs [] 1 false) s in
  alarm_ringing s' = true /\ initial_fired_today s' = true /\
  snooze_target s' = None /\ alarm_done_for_day s' = false /\
  mute s' = 0 /\ muted (radio s') = Some false.
Proof.
  apply (alarm_fires_at_its_minute dec_int
           (set_clock 6 29 59 0 (initial_state 0)) 1);
    vm_compute; reflexivity.
Defined.

Lemma ring_continues_until_muted_witness :
  let i := idle_inputs [GET_station_up; GET_status 30 false] 30 false in
  let s' := main_loop_body dec_int i ringing_example in
  alarm_ringing s' = true /\ ring_state s' = ring_state ringing_example /\
  mute s' = 0.
Proof.
  apply (ring_continues_until_muted dec_int ringing_example
           (idle_inputs [GET_station_up; GET_status 30 false] 30 false)).
  - exact ringing_example_reachable.
  - vm_compute; reflexivity.
  - reflexivity.
  - vm_compute; reflexivity.
  - reflexivity.
  - reflexivity.
Defined.

Lemma mute_button_silences_ring_witness :
  let s' := main_loop_body dec_int (mute_button_inputs 1 false) ringing_example in
  alarm_ringing s' = false /\ mute s' = 1 /\ muted (radio s') = Some true /\
  snooze_count s' = snooze_count ringing_example + 1 /\
  snooze_target s'
    = Some ((get_current_seconds 1 ringing_example + 540) mod 86400) /\
  alarm_done_for_day s' = false.
Proof.
  destruct (mute_button_silences_ring dec_int ringing_example
              (mute_button_inputs 1 false)) as (A & B & C & D & _).
  - exact ringing_example_reachable.
  - vm_compute; reflexivity.
  - reflexivity.
  - vm_compute; reflexivity.
  - reflexivity.
  - reflexivity.
  - vm_compute. split; discriminate.
  - destruct D as (D1 & D2 & D3); [vm_compute; reflexivity|].
    cbv zeta. repeat split; assumption.
Defined.

Lemma snooze_target_nine_minutes_ahead_witness :
  exists target : Z,
    snooze_target (handle_mute_press 1 ringing_example) = Some target /\
    0 <= target < 86400 /\
    (target - get_current_seconds 1 ringing_example) mod 86400 = 540 /\
    target / 60 <> get_current_seconds 1 ringing_example / 60.
Proof.
  apply (snooze_target_nine_minutes_ahead ringing_example 1);
    vm_compute; reflexivity.
Defined.

Lemma mute_toggle_round_trip_witness :
  let s := initial_state 0 in
  let s1 := handle_mute_press 1 s in
  let s2 := handle_mute_press 2 s1 in
  mute s1 = 1 - mute s /\
  muted (radio s1) = Some (py_bool (mute s1)) /\
  ring_state s1 = ring_state s /\
  mute s2 = mute s /\
  (muted (radio s) = Some (py_bool (mute s)) -> s2 = s).
Proof.
  apply (mute_toggle_round_trip (initial_state 0) 1 2).
  - reflexivity.
  - left. reflexivity.
Defined.

(** The dismissed alarm is disarmed and set to 06:50; armed again, it rings
    at 06:50. *)
Lemma rearming_lets_alarm_fire_again_witness :
  let i := idle_inputs [GET_set_alarm (query_hh_mm "6" "50")] 1100 true in
  let s2 := main_loop dec_int [i; idle_inputs [] 1200 false] dismissed_example in
  alarm_done_for_day dismissed_example = true /\
  alarm_ringing s2 = true /\ initial_fired_today s2 = true /\
  mute s2 = 0 /\ muted (radio s2) = Some false.
Proof.
  split; [vm_compute; reflexivity|].
  apply (rearming_lets_alarm_fire_again dec_int dismissed_example
           (idle_inputs [GET_set_alarm (query_hh_mm "6" "50")] 1100 true) 1200).
  - reflexivity.
  - vm_compute; reflexivity.
Defined.

(** After the dismissal at 06:48 the clock is set back to 06:29. *)
Lemma clock_set_back_resets_day_witness :
  let i := idle_inputs [GET_set_clock (query_hh_mm "6" "29") 1100] 1100 false in
  let s' := main_loop_body dec_int i dismissed_example in
  alarm_done_for_day dismissed_example = true /\
  base_seconds s' = (6 mod 24) * 3600 + (29 mod 60) * 60 /\
  prev_current_seconds s' = Some ((6 mod 24) * 3600 + (29 mod 60) * 60) /\
  snooze_count s' = 0 /\ snooze_target s' = None /\
  alarm_done_for_day s' = false.
Proof.
  split; [vm_compute; reflexivity|].
  apply (clock_set_back_resets_day dec_int dismissed_example
           (query_hh_mm "6" "29") 1100 false "6" "29" 6 29 24483);
    vm_compute; reflexivity.
Defined.

Lemma update_clock_shows_time_witness :
  exists hours minutes : Z,
    text (update_clock false 0 (initial_state 0))
      = (py_format_02d hours ++ py_format_02d minutes)%string /\
    0 <= hours <= 23 /\ 0 <= minutes <= 59 /\
    hours * 3600 + minutes * 60 + alarm_seconds (initial_state 0) mod 60
      = alarm_seconds (initial_state 0) /\
    String.length (text (update_clock false 0 (initial_state 0))) = 4%nat /\
    colon (update_clock false 0 (initial_state 0)) = true.
Proof.
  apply (update_clock_shows_time (initial_state 0) 0).
  vm_compute. split; [discriminate | reflexivity].
Defined.
